(** * Placement spreadsheet to bidder mapping converter

    A shallow embedding of [scripts/convert-excel-to-json.py]: the function
    [convert_excel_to_json] and the summary step of the script body, with
    the Python values, dictionaries and exceptions they rely on. *)

From Stdlib Require Import ZArith NArith List String Ascii Bool Lia.
From Stdlib Require Import Floats.SpecFloat.
From Stdlib Require Import Sorting.Sorted.
Import ListNotations.

Set Implicit Arguments.
Local Open Scope string_scope.
Local Open Scope list_scope.
Local Open Scope Z_scope.

(** ** Exceptions and the error monad *)

(** The exceptions the modelled statements can raise. *)
Inductive exn : Type :=
| KeyError        (* wb['PLACEMENTS'] on a workbook without that sheet *)
| IndexError      (* tuple or list index out of range *)
| ValueError      (* int(nan) *)
| OverflowError   (* int(inf) *)
| OSError.        (* reading or writing a file *)

Inductive result (A : Type) : Type :=
| Ok (a : A)
| Raise (e : exn).
Arguments Ok {A} a.
Arguments Raise {A} e.

Definition bind {A B : Type} (m : result A) (k : A -> result B) : result B :=
  match m with
  | Ok a => k a
  | Raise e => Raise e
  end.

Declare Scope py_scope.
Delimit Scope py_scope with py.
Notation "x <- m ;; k" := (bind m (fun x => k))
  (at level 61, m at next level, right associativity) : py_scope.
Notation "' pat <- m ;; k" := (bind m (fun x => match x with pat => k end))
  (at level 61, pat pattern, m at next level, right associativity) : py_scope.
Local Open Scope py_scope.

(** A [for] loop over a list whose body may raise: the loop state is
    threaded through the iterations and the first exception ends it. *)
Fixpoint for_each {A S : Type} (body : S -> A -> result S)
         (xs : list A) (s : S) : result S :=
  match xs with
  | [] => Ok s
  | x :: xs' => s' <- body s x ;; for_each body xs' s'
  end.

(** ** Python strings *)

(** A [str] is its sequence of Unicode code points. *)
Definition pystr : Type := list N.

Definition lit (s : string) : pystr :=
  List.map N_of_ascii (list_ascii_of_string s).

Definition pystr_eqb (s t : pystr) : bool :=
  if list_eq_dec N.eq_dec s t then true else false.

(** [str.isspace] on one code point: the characters [str.strip()] removes
    when called without argument. *)
Definition isspace (c : N) : bool :=
  ((9 <=? c) && (c <=? 13) || (28 <=? c) && (c <=? 32)
   || (c =? 133) || (c =? 160) || (c =? 5760)
   || (8192 <=? c) && (c <=? 8202)
   || (c =? 8232) || (c =? 8233) || (c =? 8239) || (c =? 8287)
   || (c =? 12288))%N.

Fixpoint lstrip (s : pystr) : pystr :=
  match s with
  | [] => []
  | c :: s' => if isspace c then lstrip s' else s
  end.

Definition rstrip (s : pystr) : pystr := rev (lstrip (rev s)).

Definition strip (s : pystr) : pystr := rstrip (lstrip s).

(** ** Cell values *)

(** What [cell.value] holds for a workbook loaded with [data_only=True]:
    [None] for a blank cell, a [str], an [int], a [float] or a [bool].
    Date and time cells are not modelled. *)
Inductive value : Type :=
| VNone
| VStr (s : pystr)
| VInt (z : Z)
| VFloat (f : spec_float)
| VBool (b : bool).

(** Truth value of an object, as [not x], [if x] and [bool(x)] compute it. *)
Definition truthy (v : value) : bool :=
  match v with
  | VNone => false
  | VStr s => match s with [] => false | _ :: _ => true end
  | VInt z => negb (z =? 0)
  | VFloat f => match f with S754_zero _ => false | _ => true end
  | VBool b => b
  end.

(** [int(x)] on a float: truncation towards zero; infinities and NaN are
    rejected. *)
Definition int_of_float (f : spec_float) : result Z :=
  match f with
  | S754_zero _ => Ok 0
  | S754_infinity _ => Raise OverflowError
  | S754_nan => Raise ValueError
  | S754_finite s m e =>
      let a := match e with
               | Z0 => Zpos m
               | Zpos p => Z.shiftl (Zpos m) (Zpos p)
               | Zneg p => Z.shiftr (Zpos m) (Zpos p)
               end in
      Ok (if s then - a else a)
  end.

(** *** Equality of values, as [==] and dictionary lookup see it

    Numbers of different types compare by their exact mathematical value
    ([1 == 1.0 == True]); a number is sent to the dyadic normal form
    [odd * 2^exponent] and two numbers are equal when their normal forms
    are. NaN equals nothing. *)
Inductive dyadic : Type :=
| DZero
| DOdd (neg : bool) (odd : positive) (exponent : Z)
| DInf (neg : bool).

Fixpoint odd_part (p : positive) : positive * Z :=
  match p with
  | xO q => let '(m, t) := odd_part q in (m, t + 1)
  | _ => (p, 0)
  end.

Definition dyadic_of_pos (neg : bool) (m : positive) (e : Z) : dyadic :=
  let '(o, t) := odd_part m in DOdd neg o (e + t).

Definition dyadic_of_Z (z : Z) : dyadic :=
  match z with
  | Z0 => DZero
  | Zpos p => dyadic_of_pos false p 0
  | Zneg p => dyadic_of_pos true p 0
  end.

Definition dyadic_of_float (f : spec_float) : option dyadic :=
  match f with
  | S754_zero _ => Some DZero
  | S754_infinity s => Some (DInf s)
  | S754_nan => None
  | S754_finite s m e => Some (dyadic_of_pos s m e)
  end.

Definition dyadic_eqb (a b : dyadic) : bool :=
  match a, b with
  | DZero, DZero => true
  | DOdd s m e, DOdd s' m' e' =>
      Bool.eqb s s' && Pos.eqb m m' && Z.eqb e e'
  | DInf s, DInf s' => Bool.eqb s s'
  | _, _ => false
  end.

(** The number a value denotes, when it is a number. *)
Definition number_of (v : value) : option dyadic :=
  match v with
  | VInt z => Some (dyadic_of_Z z)
  | VBool b => Some (dyadic_of_Z (Z.b2z b))
  | VFloat f => dyadic_of_float f
  | VNone | VStr _ => None
  end.

Definition py_eqb (a b : value) : bool :=
  match a, b with
  | VNone, VNone => true
  | VStr s, VStr t => pystr_eqb s t
  | VNone, _ | _, VNone | VStr _, _ | _, VStr _ => false
  | _, _ =>
      match number_of a, number_of b with
      | Some x, Some y => dyadic_eqb x y
      | _, _ => false
      end
  end.

(** ** Dictionaries

    A [dict] keeps its items in insertion order; it is an association list
    without two equal keys. [eqb] is the equality of its keys. *)
Section Dict.
Variables K V : Type.
Variable eqb : K -> K -> bool.

Definition dict : Type := list (K * V).

(** [k in d] *)
Definition dict_mem (k : K) (d : dict) : bool :=
  existsb (fun kv => eqb (fst kv) k) d.

(** [d.get(k)] *)
Fixpoint dict_get (k : K) (d : dict) : option V :=
  match d with
  | [] => None
  | (k', v) :: d' => if eqb k' k then Some v else dict_get k d'
  end.

(** [d[k] = v]: the value of an existing key is replaced in place (the
    stored key object is kept), a new key is appended. *)
Fixpoint dict_set (k : K) (v : V) (d : dict) : dict :=
  match d with
  | [] => [(k, v)]
  | (k', v') :: d' =>
      if eqb k' k then (k', v) :: d' else (k', v') :: dict_set k v d'
  end.

(** [list(d.keys())] *)
Definition dict_keys (d : dict) : list K := List.map fst d.

(** [bool(d)] *)
Definition dict_truthy (d : dict) : bool :=
  match d with [] => false | _ :: _ => true end.
End Dict.

(** [t[i]] on a tuple or list, with Python's negative indices. *)
Definition getitem {A : Type} (t : list A) (i : Z) : result A :=
  let n := Z.of_nat (List.length t) in
  let j := if i <? 0 then i + n else i in
  if (j <? 0) || (n <=? j) then Raise IndexError
  else match nth_error t (Z.to_nat j) with
       | Some a => Ok a
       | None => Raise IndexError
       end.

(** [list(range(lo, hi))] *)
Definition range (lo hi : Z) : list Z :=
  List.map (fun k => lo + Z.of_nat k) (seq 0 (Z.to_nat (hi - lo))).

(** ** Workbooks *)

(** A worksheet gives, for a row number, the tuple [sheet[row_idx]] of that
    row's cells, one per column of the sheet starting with column A; the
    model keeps each cell's [.value]. *)
Definition worksheet : Type := Z -> list value.

(** A workbook is the list of its sheets with their titles; [wb[name]] is the
    first sheet with that title. *)
Definition workbook : Type := list (pystr * worksheet).

Fixpoint wb_getitem (wb : workbook) (name : pystr) : result worksheet :=
  match wb with
  | [] => Raise KeyError
  | (title, sheet) :: wb' =>
      if pystr_eqb title name then Ok sheet else wb_getitem wb' name
  end.

(** ** The converter *)

Definition bidder_params : Type := dict string value.
Definition ad_unit : Type := dict string bidder_params.

Record publisher_info : Type := {
  publisherId : string;
  domain : string;
  defaultBidders : list string
}.

Record mapping : Type := {
  publisher : publisher_info;
  adUnits : dict value ad_unit
}.

Definition set_adUnits (m : mapping) (d : dict value ad_unit) : mapping :=
  {| publisher := publisher m; adUnits := d |}.

Definition initial_mapping : mapping :=
  {| publisher :=
       {| publisherId := "icisic-media";
          domain := "totalprosports.com";
          defaultBidders :=
            ["rubicon"; "kargo"; "sovrn"; "oms"; "aniview"; "pubmatic";
             "triplelift"]%string |};
     adUnits := [] |}.

(** Bidder column mappings: parameter name to 1-based column number. *)
Definition bidder_columns : dict string (dict string Z) :=
  [ ("rubicon", [ ("accountId", 6); ("siteId", 7); ("zoneId", 8);
                  ("bidonmultiformat", 9) ]);
    ("kargo", [ ("placementId", 10) ]);
    ("sovrn", [ ("tagid", 11) ]);
    ("oms", [ ("publisherId", 12) ]);
    ("aniview", [ ("publisherId", 14); ("channelId", 15) ]);
    ("pubmatic", [ ("publisherId", 16); ("adSlot", 17) ]);
    ("triplelift", [ ("inventoryCode", 18) ]) ]%string.

(** Desktop rows 3-13, then mobile rows 19-29. *)
Definition row_indices : list Z := range 3 14 ++ range 19 30.

Definition is_none (v : value) : bool :=
  match v with VNone => true | _ => false end.

Definition isinstance_float (v : value) : bool :=
  match v with VFloat _ => true | _ => false end.

(** [str(v).strip() != ""]. For a [str], [str(v)] is [v]. The text of an
    [int], a [float] or a [bool] ("12", "-1.5", "inf", "nan", "True") and of
    [None] holds a digit or a letter, so stripping never empties it. *)
Definition str_strip_nonempty (v : value) : bool :=
  match v with
  | VStr s => negb (pystr_eqb (strip s) [])
  | VNone | VInt _ | VFloat _ | VBool _ => true
  end.

(** The test of line 69: [value is not None and str(value).strip() != ""]. *)
Definition cell_present (v : value) : bool :=
  negb (is_none v) && str_strip_nonempty v.

(** Lines 71-74. [int(value)] is only reached on a float. *)
Definition coerce (param_name : string) (v : value) : result value :=
  if isinstance_float v && negb (param_name =? "bidonmultiformat")%string then
    match v with
    | VFloat f => z <- int_of_float f ;; Ok (VInt z)
    | _ => Ok v
    end
  else if (param_name =? "bidonmultiformat")%string then
    Ok (VBool (truthy v))
  else Ok v.

(** Body of the loop over one bidder's columns (lines 67-76); the loop state
    is [(bidder_params, has_data)]. *)
Definition param_body (row : list value) (st : bidder_params * bool)
           (item : string * Z) : result (bidder_params * bool) :=
  let '(params, has_data) := st in
  let '(param_name, col_idx) := item in
  v <- getitem row (col_idx - 1) ;;
  if cell_present v then
    v' <- coerce param_name v ;;
    Ok (dict_set String.eqb param_name v' params, true)
  else Ok (params, has_data).

(** Body of the loop over the bidders (lines 63-79); the loop state is
    [ad_unit_config]. *)
Definition bidder_body (row : list value) (ad_unit_config : ad_unit)
           (item : string * dict string Z) : result ad_unit :=
  let '(bidder, columns) := item in
  '(params, has_data) <- for_each (param_body row) columns ([], false) ;;
  if has_data then Ok (dict_set String.eqb bidder params ad_unit_config)
  else Ok ad_unit_config.

(** Lines 60-79: the ad-unit object extracted from one row. *)
Definition extract_ad_unit (row : list value) : result ad_unit :=
  for_each (bidder_body row) bidder_columns [].

(** The test of line 53. *)
Definition skip_slot (slot_pattern : value) : bool :=
  negb (truthy slot_pattern)
  || py_eqb slot_pattern (VStr (lit "Slot Pattern")).

(** Body of the loop over the rows (lines 50-82); the loop state is
    [mapping]. *)
Definition row_body (sheet : worksheet) (m : mapping) (row_idx : Z)
  : result mapping :=
  let row := sheet row_idx in
  slot_pattern <- getitem row 0 ;;
  if skip_slot slot_pattern then Ok m
  else if dict_mem py_eqb slot_pattern (adUnits m) then Ok m
  else
    ad_unit_config <- extract_ad_unit row ;;
    if dict_truthy ad_unit_config then
      Ok (set_adUnits m (dict_set py_eqb slot_pattern ad_unit_config (adUnits m)))
    else Ok m.

(** Lines 9-84, once the sheet is selected. *)
Definition convert_sheet (sheet : worksheet) : result mapping :=
  for_each (row_body sheet) row_indices initial_mapping.

Section Script.
(** [load_workbook(excel_file, data_only=True)]: the file system and the
    spreadsheet reader. *)
Variable load_workbook : string -> result workbook.

Definition convert_excel_to_json (excel_file : string) : result mapping :=
  wb <- load_workbook excel_file ;;
  sheet <- wb_getitem wb (lit "PLACEMENTS") ;;
  convert_sheet sheet.
End Script.

(** ** The script body *)

(** What the script prints, line by line; the text of a line is kept as the
    data it is formatted from. *)
Inductive line : Type :=
| LGenerated                                   (* "Generated config/..." *)
| LCount (n : nat)                             (* "{n} ad units configured" *)
| LBidders (n : nat) (names : list string)     (* "{n} bidders: a, b, ..." *)
| LSampleHeader                                (* "Sample mapping (...):" *)
| LSlot (first_slot : value)                   (* "  {first_slot}:" *)
| LBidder (bidder : string) (params : bidder_params).

Inductive output : Type :=
| FileWritten (path : string) (content : mapping)
| Printed (l : line).

(** A command of the script: it appends to what was output so far and
    returns or raises. *)
Definition io (A : Type) : Type := list output -> list output * result A.

Definition io_ret {A : Type} (a : A) : io A := fun out => (out, Ok a).

Definition io_bind {A B : Type} (c : io A) (k : A -> io B) : io B :=
  fun out =>
    match c out with
    | (out', Ok a) => k a out'
    | (out', Raise e) => (out', Raise e)
    end.

Definition lift {A : Type} (r : result A) : io A := fun out => (out, r).

Definition emit (o : output) : io unit := fun out => (out ++ [o], Ok tt).

Definition print (l : line) : io unit := emit (Printed l).

Declare Scope io_scope.
Delimit Scope io_scope with io.
Notation "x <- c ;; k" := (io_bind c (fun x => k))
  (at level 61, c at next level, right associativity) : io_scope.
Notation "c ;; k" := (io_bind c (fun _ => k))
  (at level 61, right associativity) : io_scope.

Fixpoint io_for {A : Type} (body : A -> io unit) (xs : list A) : io unit :=
  match xs with
  | [] => io_ret tt
  | x :: xs' => (body x ;; io_for body xs')%io
  end.

(** [s.update(keys)] on a set of strings, kept as a duplicate-free list. *)
Definition set_update (s : list string) (keys : list string) : list string :=
  fold_left (fun acc k => if existsb (String.eqb k) acc then acc
                          else acc ++ [k]) keys s.

(** [sorted(s)] on strings. *)
Fixpoint insert_sorted (k : string) (l : list string) : list string :=
  match l with
  | [] => [k]
  | x :: l' => if String.leb k x then k :: l else x :: insert_sorted k l'
  end.

Definition sorted (s : list string) : list string :=
  fold_right insert_sorted [] s.

(** Lines 93-107: the summary printed once the file is written. *)
Definition print_summary (m : mapping) : io unit :=
  (print LGenerated ;;
   print (LCount (List.length (adUnits m))) ;;
   let all_bidders :=
     fold_left (fun acc (item : value * ad_unit) =>
                  set_update acc (dict_keys (snd item)))
               (adUnits m) [] in
   print (LBidders (List.length all_bidders) (sorted all_bidders)) ;;
   print LSampleHeader ;;
   first_slot <- lift (getitem (dict_keys (adUnits m)) 0) ;;
   print (LSlot first_slot) ;;
   (* mapping['adUnits'][first_slot]: the key just taken from the
      dictionary is found at its first item *)
   first_unit <- lift (getitem (List.map snd (adUnits m)) 0) ;;
   io_for (fun item : string * bidder_params =>
             print (LBidder (fst item) (snd item)))
          first_unit)%io.

Section Main.
Variable load_workbook : string -> result workbook.
(** [open(path, 'w')]: whether the output file can be created. *)
Variable open_w : string -> result unit.

(** Lines 86-107. *)
Definition main : io unit :=
  (let excel_file := "docs/integrations/tps-onboarding.xlsx"%string in
   m <- lift (convert_excel_to_json load_workbook excel_file) ;;
   let path := "config/bizbudding-all-bidders-mapping.json"%string in
   lift (open_w path) ;;
   emit (FileWritten path m) ;;
   print_summary m)%io.
End Main.

(** ** Vocabulary of the properties *)

(** A string is blank when it is empty or made of white space only. *)
Definition blank (s : pystr) : Prop := forall c, In c s -> isspace c = true.

(** The dictionary key a value stands for; NaN stands for none. *)
Inductive pykey : Type :=
| KNone
| KStr (s : pystr)
| KNum (d : dyadic).

Definition py_key (v : value) : option pykey :=
  match v with
  | VNone => Some KNone
  | VStr s => Some (KStr s)
  | _ => option_map KNum (number_of v)
  end.

(** Whether the cell of 1-based column [col_idx] of a row passes the test of
    line 69; a column outside the row has no cell. *)
Definition present_at (row : list value) (col_idx : Z) : bool :=
  match getitem row (col_idx - 1) with
  | Ok v => cell_present v
  | Raise _ => false
  end.

Definition columns_have_data (row : list value) (columns : dict string Z)
  : bool :=
  existsb (fun item => present_at row (snd item)) columns.

(** Whether some bidder has a present cell in the row. *)
Definition any_bidder_data (row : list value) : bool :=
  existsb (fun item => columns_have_data row (snd item)) bidder_columns.

(** The four ways an iteration of the row loop ends without raising. *)
Inductive row_step (sheet : worksheet) (m : mapping) (row_idx : Z)
  : mapping -> Prop :=
| step_skip s :
    getitem (sheet row_idx) 0 = Ok s ->
    skip_slot s = true ->
    row_step sheet m row_idx m
| step_seen s :
    getitem (sheet row_idx) 0 = Ok s ->
    skip_slot s = false ->
    dict_mem py_eqb s (adUnits m) = true ->
    row_step sheet m row_idx m
| step_empty s :
    getitem (sheet row_idx) 0 = Ok s ->
    skip_slot s = false ->
    dict_mem py_eqb s (adUnits m) = false ->
    extract_ad_unit (sheet row_idx) = Ok [] ->
    any_bidder_data (sheet row_idx) = false ->
    row_step sheet m row_idx m
| step_record s cfg :
    getitem (sheet row_idx) 0 = Ok s ->
    skip_slot s = false ->
    dict_mem py_eqb s (adUnits m) = false ->
    extract_ad_unit (sheet row_idx) = Ok cfg ->
    any_bidder_data (sheet row_idx) = true ->
    cfg <> [] ->
    row_step sheet m row_idx (set_adUnits m (adUnits m ++ [(s, cfg)])).

(** Whether a row can give the entry of key [k]: its slot pattern passes the
    test of line 53 and equals [k], and some bidder has data in the row. *)
Definition candidate (sheet : worksheet) (k : value) (row_idx : Z) : bool :=
  match getitem (sheet row_idx) 0 with
  | Ok s => negb (skip_slot s) && py_eqb s k
            && any_bidder_data (sheet row_idx)
  | Raise _ => false
  end.

(** A value [int()] does not reject: anything but an infinite float or a
    NaN. *)
Definition finite_value (v : value) : bool :=
  match v with
  | VFloat (S754_infinity _) | VFloat S754_nan => false
  | _ => true
  end.

(** A row the loops run through without raising: it reaches column R and
    holds no infinity and no NaN. *)
Definition row_ok (row : list value) : bool :=
  (18 <=? Z.of_nat (List.length row)) && forallb finite_value row.

Definition sheet_ok (sheet : worksheet) : bool :=
  forallb (fun i => row_ok (sheet i)) row_indices.

(** *** Sample sheets *)

(** A row of 18 columns holding the given cells (1-based column, value) and
    blanks elsewhere. *)
Definition cells (given : list (Z * value)) : list value :=
  List.map (fun c => match find (fun cv => fst cv =? c) given with
                     | Some cv => snd cv
                     | None => VNone
                     end)
           (range 1 19).

Definition blank_sheet : worksheet := fun _ => cells [].

(** Three populated rows: two slot patterns, the second desktop row and a
    mobile row that repeats the first one; row 13 repeats the header. *)
Definition sample_sheet : worksheet := fun row_idx =>
  match row_idx with
  | 3 => cells [ (1, VStr (lit "billboard"));
                 (6, VFloat (S754_finite false 7228739196813312 (-38)));
                 (7, VFloat (S754_finite false 4781415291944960 (-33)));
                 (8, VInt 3767184);
                 (9, VBool true);
                 (10, VStr (lit "_o5JqmWmgs")) ]
  | 4 => cells [ (1, VStr (lit "leaderboard"));
                 (11, VInt 1294952);
                 (16, VStr (lit "166938"));
                 (17, VStr (lit " ")) ]
  | 13 => cells [ (1, VStr (lit "Slot Pattern"));
                  (6, VStr (lit "Account ID")) ]
  | 19 => cells [ (1, VStr (lit "billboard"));
                  (10, VStr (lit "_mobileDup"));
                  (18, VStr (lit "dup_code")) ]
  | _ => cells []
  end.

(** Two rows with one slot pattern, the first without any bidder cell. *)
Definition late_data_sheet : worksheet := fun row_idx =>
  match row_idx with
  | 3 => cells [ (1, VStr (lit "billboard")) ]
  | 4 => cells [ (1, VStr (lit "billboard"));
                 (10, VStr (lit "_k1")) ]
  | _ => cells []
  end.

(** A row whose slot pattern is two spaces. *)
Definition spaces_sheet : worksheet := fun row_idx =>
  match row_idx with
  | 3 => cells [ (1, VStr (lit "  ")); (10, VStr (lit "_k1")) ]
  | _ => cells []
  end.

(** *** Statements about cells, rows and slot patterns *)

(** A cell holds something: it is not blank, and when it holds text the text
    is neither empty nor white space only. *)
Definition nonblank_cell (v : value) : Prop :=
  v <> VNone /\ forall s, v = VStr s -> ~ blank s.

Definition is_number (v : value) : bool :=
  match v with VInt _ | VFloat _ => true | _ => false end.

(** The iterated rows whose slot-pattern cell equals [k], in iteration
    order. *)
Definition occurrences (sheet : worksheet) (k : value) : list Z :=
  filter (fun i => match getitem (sheet i) 0 with
                   | Ok s => py_eqb s k
                   | Raise _ => false
                   end) row_indices.

(** The entry of a slot pattern that occurs in several rows holds the data
    extracted from its first occurrence, whatever that row holds. *)
Definition first_occurrence_wins (sheet : worksheet) : Prop :=
  forall m k first later cfg,
    convert_sheet sheet = Ok m ->
    occurrences sheet k = first :: later -> later <> [] ->
    dict_get py_eqb k (adUnits m) = Some cfg ->
    extract_ad_unit (sheet first) = Ok cfg.

(** No two keys of a dictionary are equal. *)
Fixpoint distinct_keys {V : Type} (d : dict value V) : bool :=
  match d with
  | [] => true
  | (k, _) :: d' => negb (dict_mem py_eqb k d') && distinct_keys d'
  end.

(** A row is populated when its slot pattern passes the test of line 53 and
    some bidder has data in it. *)
Definition populated (sheet : worksheet) (row_idx : Z) : bool :=
  match getitem (sheet row_idx) 0 with
  | Ok s => negb (skip_slot s) && any_bidder_data (sheet row_idx)
  | Raise _ => false
  end.

Definition slot_of (sheet : worksheet) (row_idx : Z) : value :=
  match getitem (sheet row_idx) 0 with
  | Ok s => s
  | Raise _ => VNone
  end.

(** The parameter values found in an ad unit and in a mapping. *)
Definition unit_values (cfg : ad_unit) : list value :=
  flat_map (fun bp : string * bidder_params => List.map snd (snd bp)) cfg.

Definition mapping_values (m : mapping) : list value :=
  flat_map (fun e : value * ad_unit => unit_values (snd e)) (adUnits m).

(** *** Statements about whole runs *)

(** Whether the loops get through a configured cell: the row has the column
    and, unless the parameter is the flag, the cell is nothing [int()]
    rejects. *)
Definition cell_accepted (row : list value) (item : string * Z) : bool :=
  match getitem row (snd item - 1) with
  | Ok v => (fst item =? "bidonmultiformat")%string || finite_value v
  | Raise _ => false
  end.

Definition row_accepted (row : list value) : bool :=
  forallb (fun item : string * dict string Z =>
             forallb (cell_accepted row) (snd item)) bidder_columns.

(** The ad-unit object of a row, empty when the extraction raises. *)
Definition unit_of (sheet : worksheet) (row_idx : Z) : ad_unit :=
  match extract_ad_unit (sheet row_idx) with
  | Ok cfg => cfg
  | Raise _ => []
  end.

(** The rows that are recorded: the populated rows whose slot pattern equals
    none of the slot patterns [seen] so far. *)
Fixpoint first_rows (sheet : worksheet) (rows : list Z) (seen : list value)
  : list Z :=
  match rows with
  | [] => []
  | i :: rows' =>
      if populated sheet i
         && negb (existsb (fun k => py_eqb k (slot_of sheet i)) seen)
      then i :: first_rows sheet rows' (seen ++ [slot_of sheet i])
      else first_rows sheet rows' seen
  end.





(** The set [all_bidders] of lines 97-99. *)
Definition all_bidders (m : mapping) : list string :=
  fold_left (fun acc (item : value * ad_unit) =>
               set_update acc (dict_keys (snd item)))
            (adUnits m) [].

(** The four lines every summary starts with. *)
Definition summary_head (m : mapping) : list output :=
  [Printed LGenerated;
   Printed (LCount (List.length (adUnits m)));
   Printed (LBidders (List.length (all_bidders m)) (sorted (all_bidders m)));
   Printed LSampleHeader].

(** The lines of the sample: the slot pattern and the bidders of an ad
    unit. *)
Definition sample_lines (k : value) (u : ad_unit) : list output :=
  Printed (LSlot k)
  :: List.map (fun item : string * bidder_params =>
                 Printed (LBidder (fst item) (snd item))) u.

(** * Properties *)

Unset Implicit Arguments.

(** ** Loops *)

Lemma for_each_app {A S : Type} (body : S -> A -> result S) xs ys (s : S) :
  for_each body (xs ++ ys) s = (s' <- for_each body xs s ;; for_each body ys s').
Proof.
  revert s; induction xs as [|x xs IH]; intros s; simpl; [reflexivity|].
  destruct (body s x) as [s1|e]; simpl; [apply IH | reflexivity].
Qed.

(** Iterations that leave the state alone can be dropped from a loop. *)
Lemma for_each_filter {A S : Type} (body : S -> A -> result S)
      (keep : A -> bool) (Inv : S -> Prop) xs :
  (forall s x, Inv s -> In x xs -> keep x = false -> body s x = Ok s) ->
  (forall s x s', Inv s -> In x xs -> body s x = Ok s' -> Inv s') ->
  forall s, Inv s ->
  for_each body xs s = for_each body (filter keep xs) s.
Proof.
  induction xs as [|x xs IH]; intros Hskip Hinv s Hs; simpl; [reflexivity|].
  assert (IH' : forall s, Inv s ->
            for_each body xs s = for_each body (filter keep xs) s).
  { apply IH; intros; eauto using in_cons. }
  destruct (keep x) eqn:Hk; simpl.
  - destruct (body s x) as [s1|e] eqn:Hb; simpl; [|reflexivity].
    apply IH'. eapply Hinv; eauto using in_eq.
  - rewrite (Hskip s x Hs (in_eq _ _) Hk); simpl. now apply IH'.
Qed.

(** ** Strings *)

Lemma pystr_eqb_eq s t : pystr_eqb s t = true <-> s = t.
Proof.
  unfold pystr_eqb; destruct (list_eq_dec N.eq_dec s t); split;
    congruence.
Qed.

Lemma pystr_eqb_refl s : pystr_eqb s s = true.
Proof. now apply pystr_eqb_eq. Qed.

Lemma lstrip_nil_iff s : lstrip s = [] <-> forallb isspace s = true.
Proof.
  induction s as [|c s IH]; simpl; [tauto|].
  destruct (isspace c); simpl; [exact IH|]. split; discriminate.
Qed.

Lemma lstrip_head s c t : lstrip s = c :: t -> isspace c = false.
Proof.
  induction s as [|c0 s IH]; simpl; [discriminate|].
  destruct (isspace c0) eqn:E0; [exact IH|]. congruence.
Qed.

Lemma strip_nil_iff s : strip s = [] <-> forallb isspace s = true.
Proof.
  unfold strip, rstrip. rewrite <- lstrip_nil_iff. split.
  - intros H. destruct (lstrip s) as [|c t] eqn:E; [reflexivity|].
    exfalso. apply (f_equal (@rev N)) in H. rewrite rev_involutive in H.
    simpl in H. apply lstrip_nil_iff in H.
    rewrite forallb_forall in H.
    assert (Hc : isspace c = true).
    { apply H. apply in_or_app. right. now left. }
    apply lstrip_head in E. congruence.
  - intros ->. reflexivity.
Qed.

Lemma strip_nonempty_iff s :
  negb (pystr_eqb (strip s) []) = true <-> ~ blank s.
Proof.
  rewrite negb_true_iff, <- not_true_iff_false, pystr_eqb_eq, strip_nil_iff.
  unfold blank. now rewrite forallb_forall.
Qed.

(** ** Equality of values *)

Lemma dyadic_eqb_eq a b : dyadic_eqb a b = true <-> a = b.
Proof.
  destruct a as [|s m e|s], b as [|s' m' e'|s']; simpl;
    try (split; [discriminate | congruence]); try tauto.
  - rewrite !andb_true_iff, Bool.eqb_true_iff, Pos.eqb_eq, Z.eqb_eq.
    split; [intros [[-> ->] ->]; reflexivity | intros [= -> -> ->]; tauto].
  - rewrite Bool.eqb_true_iff. split; congruence.
Qed.

Lemma py_eqb_key a b :
  py_eqb a b = true <-> exists k, py_key a = Some k /\ py_key b = Some k.
Proof.
  destruct a as [|s|z|f|c], b as [|s'|z'|f'|c']; simpl;
    repeat match goal with
           | |- context [dyadic_of_float ?x] =>
               destruct (dyadic_of_float x); simpl
           end;
    rewrite ?dyadic_eqb_eq, ?pystr_eqb_eq;
    (split;
     [ intros H; try discriminate; try rewrite H; eauto
     | intros (k & H1 & H2); congruence ]).
Qed.

Lemma py_eqb_sym a b : py_eqb a b = py_eqb b a.
Proof.
  apply eq_true_iff_eq. rewrite !py_eqb_key.
  split; intros (k & H1 & H2); eauto.
Qed.

Lemma py_eqb_trans a b c :
  py_eqb a b = true -> py_eqb b c = true -> py_eqb a c = true.
Proof.
  rewrite !py_eqb_key. intros (k & H1 & H2) (k' & H3 & H4).
  exists k. split; congruence.
Qed.

(** The normal form loses nothing: the odd part and the shift give the
    number back, so integers are equal keys only when they are equal. *)
Lemma odd_part_spec p :
  0 <= snd (odd_part p) /\
  Zpos p = Zpos (fst (odd_part p)) * 2 ^ snd (odd_part p).
Proof.
  induction p as [p IH|p IH|].
  - cbn [odd_part fst snd]. rewrite Z.pow_0_r. lia.
  - cbn [odd_part]. destruct (odd_part p) as [o t]. cbn [fst snd] in *.
    destruct IH as [Ht IH]. split; [lia|].
    rewrite Z.pow_add_r, Z.pow_1_r, Pos2Z.inj_xO, IH by lia. ring.
  - cbn [odd_part fst snd]. rewrite Z.pow_0_r. lia.
Qed.

Lemma dyadic_of_Z_inj a b : dyadic_of_Z a = dyadic_of_Z b -> a = b.
Proof.
  assert (H : forall s s' p q, dyadic_of_pos s p 0 = dyadic_of_pos s' q 0 ->
                               s = s' /\ p = q).
  { intros s s' p q. unfold dyadic_of_pos.
    pose proof (odd_part_spec p) as [_ Hp].
    pose proof (odd_part_spec q) as [_ Hq].
    destruct (odd_part p) as [o t], (odd_part q) as [o' t']; simpl in *.
    intros [= -> -> E]. split; [reflexivity|].
    assert (t = t') by lia. subst t'. rewrite <- Hq in Hp. congruence. }
  destruct a as [|p|p], b as [|q|q]; simpl; try reflexivity;
    try (unfold dyadic_of_pos; destruct (odd_part _); discriminate);
    intros E; apply H in E; destruct E; congruence.
Qed.

Lemma py_eqb_int a b : py_eqb (VInt a) (VInt b) = (a =? b).
Proof.
  apply eq_true_iff_eq. simpl. rewrite dyadic_eqb_eq, Z.eqb_eq.
  split; [apply dyadic_of_Z_inj | congruence].
Qed.

(** [1 == 1.0 == True], [0.5 != 0], [nan != nan]. *)
Example py_eqb_examples :
  let one := S754_finite false 4503599627370496 (-52) in
  let half := S754_finite false 4503599627370496 (-53) in
  py_eqb (VInt 1) (VFloat one) = true /\
  py_eqb (VFloat one) (VBool true) = true /\
  py_eqb (VFloat half) (VInt 0) = false /\
  py_eqb (VFloat S754_nan) (VFloat S754_nan) = false /\
  py_eqb (VStr (lit "1")) (VInt 1) = false /\
  int_of_float half = Ok 0 /\
  int_of_float (S754_finite true 7 (-1)) = Ok (-3).
Proof. repeat split. Qed.

(** ** Dictionaries *)

Section DictFacts.
Variables K V : Type.
Variable eqb : K -> K -> bool.

Lemma dict_mem_get (k : K) (d : dict K V) :
  dict_mem eqb k d = match dict_get eqb k d with
                     | Some _ => true
                     | None => false
                     end.
Proof.
  induction d as [|[k' v'] d IH]; simpl; [reflexivity|].
  destruct (eqb k' k); simpl; [reflexivity | exact IH].
Qed.

Lemma dict_set_fresh (k : K) (v : V) (d : dict K V) :
  dict_mem eqb k d = false -> dict_set eqb k v d = d ++ [(k, v)].
Proof.
  induction d as [|[k' v'] d IH]; simpl; [reflexivity|].
  destruct (eqb k' k); simpl; [discriminate|].
  intros H. now rewrite IH.
Qed.

Lemma dict_truthy_set (k : K) (v : V) (d : dict K V) :
  dict_truthy (dict_set eqb k v d) = true.
Proof.
  destruct d as [|[k' v'] d]; simpl; [reflexivity|].
  now destruct (eqb k' k).
Qed.

(** Key equality is symmetric and transitive (it need not be reflexive:
    NaN). *)
Hypothesis eqb_sym : forall a b, eqb a b = eqb b a.
Hypothesis eqb_trans :
  forall a b c, eqb a b = true -> eqb b c = true -> eqb a c = true.

Lemma dict_get_set (k k' : K) (v : V) (d : dict K V) :
  dict_get eqb k (dict_set eqb k' v d)
  = if eqb k' k then Some v else dict_get eqb k d.
Proof.
  induction d as [|[k0 v0] d IH]; simpl; [reflexivity|].
  destruct (eqb k0 k') eqn:E; simpl.
  - destruct (eqb k0 k) eqn:E0, (eqb k' k) eqn:E1; try reflexivity.
    + rewrite eqb_sym in E.
      rewrite (eqb_trans _ _ _ E E0) in E1. discriminate.
    + rewrite (eqb_trans _ _ _ E E1) in E0. discriminate.
  - rewrite IH. destruct (eqb k0 k) eqn:E0; [|reflexivity].
    destruct (eqb k' k) eqn:E1; [|reflexivity].
    rewrite eqb_sym in E1.
    rewrite (eqb_trans _ _ _ E0 E1) in E. discriminate.
Qed.

(** A key equal to a stored key is a member. *)
Lemma dict_mem_congr (k k' : K) (d : dict K V) :
  eqb k k' = true -> dict_mem eqb k d = dict_mem eqb k' d.
Proof.
  intros E. induction d as [|[k0 v0] d IH]; simpl; [reflexivity|].
  rewrite IH. f_equal.
  destruct (eqb k0 k) eqn:E0, (eqb k0 k') eqn:E1; try reflexivity.
  - rewrite (eqb_trans _ _ _ E0 E) in E1. discriminate.
  - rewrite eqb_sym in E.
    rewrite (eqb_trans _ _ _ E1 E) in E0. discriminate.
Qed.
End DictFacts.

Lemma string_eqb_trans (a b c : string) :
  String.eqb a b = true -> String.eqb b c = true -> String.eqb a c = true.
Proof. rewrite !String.eqb_eq. congruence. Qed.

Lemma string_dict_get_set (V : Type) (k k' : string) (v : V) d :
  dict_get String.eqb k (dict_set String.eqb k' v d)
  = if String.eqb k' k then Some v else dict_get String.eqb k d.
Proof. apply dict_get_set; [apply String.eqb_sym | apply string_eqb_trans]. Qed.

Lemma py_dict_get_set (V : Type) (k k' : value) (v : V) d :
  dict_get py_eqb k (dict_set py_eqb k' v d)
  = if py_eqb k' k then Some v else dict_get py_eqb k d.
Proof. apply dict_get_set; [apply py_eqb_sym | apply py_eqb_trans]. Qed.

(** ** The loop over a bidder's columns *)

Arguments param_body : simpl never.
Arguments bidder_body : simpl never.
Arguments row_body : simpl never.
Arguments extract_ad_unit : simpl never.

Lemma param_body_inv row ps hd p c ps' hd' :
  param_body row (ps, hd) (p, c) = Ok (ps', hd') ->
  exists v, getitem row (c - 1) = Ok v /\
    if cell_present v
    then exists v', coerce p v = Ok v' /\
                    ps' = dict_set String.eqb p v' ps /\ hd' = true
    else ps' = ps /\ hd' = hd.
Proof.
  unfold param_body. destruct (getitem row (c - 1)) as [v|e]; simpl;
    [|discriminate].
  intros H. exists v. split; [reflexivity|].
  destruct (cell_present v).
  - destruct (coerce p v) as [v'|e]; simpl in H; [|discriminate].
    injection H as <- <-. eauto.
  - now injection H as <- <-.
Qed.

Lemma param_loop_has_data row columns ps hd ps' hd' :
  for_each (param_body row) columns (ps, hd) = Ok (ps', hd') ->
  hd' = hd || columns_have_data row columns.
Proof.
  unfold columns_have_data.
  revert ps hd; induction columns as [|[p c] columns IH]; intros ps hd; simpl.
  - intros [= <- <-]. now rewrite orb_false_r.
  - destruct (param_body row (ps, hd) (p, c)) as [[ps1 hd1]|e] eqn:Hb; simpl;
      [|discriminate].
    intros H. apply IH in H. subst hd'.
    apply param_body_inv in Hb. destruct Hb as (v & Hv & Hb).
    unfold present_at. rewrite Hv.
    destruct (cell_present v).
    + destruct Hb as (v' & _ & _ & ->). simpl. now rewrite orb_true_r.
    + destruct Hb as [_ ->]. reflexivity.
Qed.

(** The parameter set is touched only together with the flag. *)
Lemma param_loop_params row columns ps hd ps' hd' :
  for_each (param_body row) columns (ps, hd) = Ok (ps', hd') ->
  (hd = true -> ps <> []) ->
  (hd' = true -> ps' <> []) /\ (hd' = false -> ps' = ps).
Proof.
  revert ps hd; induction columns as [|[p c] columns IH]; intros ps hd; simpl.
  - intros [= <- <-] H. split; [exact H | reflexivity].
  - destruct (param_body row (ps, hd) (p, c)) as [[ps1 hd1]|e] eqn:Hb; simpl;
      [|discriminate].
    intros H Hps. apply param_body_inv in Hb. destruct Hb as (v & Hv & Hb).
    pose proof (param_loop_has_data _ _ _ _ _ _ H) as Hhd.
    destruct (cell_present v).
    + destruct Hb as (v' & _ & -> & ->). simpl in Hhd. subst hd'.
      apply IH in H.
      * destruct H as [H1 _]. split; [exact H1 | discriminate].
      * intros _ E. apply (f_equal (@dict_truthy string value)) in E.
        rewrite dict_truthy_set in E. discriminate.
    + destruct Hb as [-> ->]. now apply IH in H.
Qed.

Lemma param_loop_get row columns :
  NoDup (List.map fst columns) ->
  forall ps hd ps' hd',
  for_each (param_body row) columns (ps, hd) = Ok (ps', hd') ->
  (forall p, ~ In p (List.map fst columns) ->
             dict_get String.eqb p ps' = dict_get String.eqb p ps) /\
  (forall p c, In (p, c) columns ->
     exists v, getitem row (c - 1) = Ok v /\
       if cell_present v
       then exists v', coerce p v = Ok v' /\
                       dict_get String.eqb p ps' = Some v'
       else dict_get String.eqb p ps' = dict_get String.eqb p ps).
Proof.
  induction columns as [|[p0 c0] columns IH]; intros Hnd ps hd ps' hd'; simpl.
  - intros [= <- <-]. split; [reflexivity | contradiction].
  - inversion Hnd as [|? ? Hnotin Hnd']; subst.
    destruct (param_body row (ps, hd) (p0, c0)) as [[ps1 hd1]|e] eqn:Hb; simpl;
      [|discriminate].
    intros H. apply (IH Hnd') in H. destruct H as [Hout Hin].
    apply param_body_inv in Hb. destruct Hb as (v & Hv & Hb).
    assert (Hps1 : forall p, p <> p0 ->
              dict_get String.eqb p ps1 = dict_get String.eqb p ps).
    { intros p Hp. destruct (cell_present v).
      - destruct Hb as (v' & _ & -> & _). rewrite string_dict_get_set.
        destruct (String.eqb_spec p0 p); congruence.
      - now destruct Hb as [-> _]. }
    split.
    + intros p Hp. rewrite Hout by tauto. apply Hps1. intros ->. tauto.
    + intros p c [[= -> ->]|Hpc].
      * exists v. split; [exact Hv|]. rewrite (Hout p Hnotin).
        destruct (cell_present v).
        -- destruct Hb as (v' & Hc & -> & _). exists v'. split; [exact Hc|].
           rewrite string_dict_get_set. now rewrite String.eqb_refl.
        -- now destruct Hb as [-> _].
      * destruct (Hin p c Hpc) as (w & Hw & Hres). exists w.
        split; [exact Hw|].
        assert (Hne : p <> p0).
        { intros ->. apply Hnotin. apply in_map_iff. now exists (p0, c). }
        destruct (cell_present w); [exact Hres|].
        rewrite Hres. now apply Hps1.
Qed.

(** ** The loop over the bidders *)

Lemma bidder_body_inv row cfg b columns cfg' :
  bidder_body row cfg (b, columns) = Ok cfg' ->
  exists ps hd,
    for_each (param_body row) columns ([], false) = Ok (ps, hd) /\
    hd = columns_have_data row columns /\
    if hd then ps <> [] /\ cfg' = dict_set String.eqb b ps cfg
    else cfg' = cfg.
Proof.
  unfold bidder_body.
  destruct (for_each (param_body row) columns ([], false)) as [[ps hd]|e]
    eqn:Hloop; simpl; [|discriminate].
  intros H. exists ps, hd. split; [reflexivity|].
  pose proof (param_loop_has_data _ _ _ _ _ _ Hloop) as Hhd. simpl in Hhd.
  split; [exact Hhd|].
  destruct hd; [|congruence].
  split; [|congruence].
  apply (param_loop_params _ _ _ _ _ _ Hloop); [discriminate | reflexivity].
Qed.

Lemma bidder_loop_truthy row bidders cfg cfg' :
  for_each (bidder_body row) bidders cfg = Ok cfg' ->
  dict_truthy cfg'
  = dict_truthy cfg
    || existsb (fun item => columns_have_data row (snd item)) bidders.
Proof.
  revert cfg; induction bidders as [|[b columns] bidders IH]; intros cfg; simpl.
  - intros [= <-]. now rewrite orb_false_r.
  - destruct (bidder_body row cfg (b, columns)) as [cfg1|e] eqn:Hb; simpl;
      [|discriminate].
    intros H. rewrite (IH _ H).
    apply bidder_body_inv in Hb. destruct Hb as (ps & hd & _ & <- & Hb).
    destruct hd.
    + destruct Hb as [_ ->]. rewrite dict_truthy_set. simpl.
      now rewrite orb_true_r.
    + now subst cfg1.
Qed.

Lemma Forall_dict_set (K V : Type) (eqb : K -> K -> bool) (Q : V -> Prop)
      k v (d : dict K V) :
  Forall (fun kv => Q (snd kv)) d -> Q v ->
  Forall (fun kv => Q (snd kv)) (dict_set eqb k v d).
Proof.
  intros Hd Hv. induction Hd as [|[k0 v0] d H0 Hd IH]; simpl.
  - now repeat constructor.
  - destruct (eqb k0 k); constructor; assumption.
Qed.

Lemma bidder_loop_nonempty row bidders cfg cfg' :
  for_each (bidder_body row) bidders cfg = Ok cfg' ->
  Forall (fun kv => snd kv <> []) cfg ->
  Forall (fun kv => snd kv <> []) cfg'.
Proof.
  revert cfg; induction bidders as [|[b columns] bidders IH]; intros cfg; simpl.
  - now intros [= <-].
  - destruct (bidder_body row cfg (b, columns)) as [cfg1|e] eqn:Hb; simpl;
      [|discriminate].
    intros H Hcfg. apply (IH _ H).
    apply bidder_body_inv in Hb. destruct Hb as (ps & hd & _ & _ & Hb).
    destruct hd; [|now subst].
    destruct Hb as [Hps ->].
    now apply (@Forall_dict_set _ _ String.eqb (fun ps => ps <> [])).
Qed.

Lemma bidder_loop_get row bidders :
  NoDup (List.map fst bidders) ->
  forall cfg cfg',
  for_each (bidder_body row) bidders cfg = Ok cfg' ->
  (forall b, ~ In b (List.map fst bidders) ->
             dict_get String.eqb b cfg' = dict_get String.eqb b cfg) /\
  (forall b columns, In (b, columns) bidders ->
     exists ps,
       for_each (param_body row) columns ([], false)
       = Ok (ps, columns_have_data row columns) /\
       if columns_have_data row columns
       then dict_get String.eqb b cfg' = Some ps
       else dict_get String.eqb b cfg' = dict_get String.eqb b cfg).
Proof.
  induction bidders as [|[b0 c0] bidders IH]; intros Hnd cfg cfg'; simpl.
  - intros [= <-]. split; [reflexivity | contradiction].
  - inversion Hnd as [|? ? Hnotin Hnd']; subst.
    destruct (bidder_body row cfg (b0, c0)) as [cfg1|e] eqn:Hb; simpl;
      [|discriminate].
    intros H. apply (IH Hnd') in H. destruct H as [Hout Hin].
    apply bidder_body_inv in Hb. destruct Hb as (ps & hd & Hloop & -> & Hb).
    assert (Hcfg1 : forall b, b <> b0 ->
              dict_get String.eqb b cfg1 = dict_get String.eqb b cfg).
    { intros b Hne. destruct (columns_have_data row c0).
      - destruct Hb as [_ ->]. rewrite string_dict_get_set.
        destruct (String.eqb_spec b0 b); congruence.
      - now subst. }
    split.
    + intros b Hb'. rewrite Hout by tauto. apply Hcfg1. intros ->. tauto.
    + intros b columns [[= -> ->]|Hbc].
      * exists ps. split; [exact Hloop|]. rewrite (Hout b Hnotin).
        destruct (columns_have_data row columns).
        -- destruct Hb as [_ ->]. rewrite string_dict_get_set.
           now rewrite String.eqb_refl.
        -- now subst.
      * destruct (Hin b columns Hbc) as (ps' & Hloop' & Hres). exists ps'.
        split; [exact Hloop'|].
        assert (Hne : b <> b0).
        { intros ->. apply Hnotin. apply in_map_iff. now exists (b0, columns). }
        destruct (columns_have_data row columns); [exact Hres|].
        rewrite Hres. now apply Hcfg1.
Qed.

Lemma bidder_columns_nodup :
  NoDup (List.map fst bidder_columns) /\
  Forall (fun item => NoDup (List.map fst (snd item))) bidder_columns.
Proof.
  split.
  - repeat constructor; simpl; intuition discriminate.
  - repeat constructor; simpl; intuition discriminate.
Qed.

(** What [extract_ad_unit] leaves for a configured bidder. *)
Lemma extract_get row cfg b columns :
  extract_ad_unit row = Ok cfg ->
  In (b, columns) bidder_columns ->
  exists ps,
    for_each (param_body row) columns ([], false)
    = Ok (ps, columns_have_data row columns) /\
    if columns_have_data row columns
    then dict_get String.eqb b cfg = Some ps
    else dict_get String.eqb b cfg = None.
Proof.
  intros H Hin.
  destruct (bidder_loop_get row _ (proj1 bidder_columns_nodup) _ _ H)
    as [_ Hget].
  exact (Hget b columns Hin).
Qed.

Lemma extract_truthy row cfg :
  extract_ad_unit row = Ok cfg -> dict_truthy cfg = any_bidder_data row.
Proof. intros H. apply bidder_loop_truthy in H. exact H. Qed.

Lemma extract_nonempty_params row cfg b ps :
  extract_ad_unit row = Ok cfg -> In (b, ps) cfg -> ps <> [].
Proof.
  intros H Hin. apply bidder_loop_nonempty in H; [|constructor].
  rewrite Forall_forall in H. exact (H _ Hin).
Qed.

(** ** The loop over the rows *)

Lemma row_body_step sheet m row_idx m' :
  row_body sheet m row_idx = Ok m' <-> row_step sheet m row_idx m'.
Proof.
  unfold row_body. split.
  - destruct (getitem (sheet row_idx) 0) as [s|e] eqn:Hs; simpl;
      [|discriminate].
    destruct (skip_slot s) eqn:Hskip.
    { intros [= <-]. eapply step_skip; eauto. }
    destruct (dict_mem py_eqb s (adUnits m)) eqn:Hmem.
    { intros [= <-]. eapply step_seen; eauto. }
    destruct (extract_ad_unit (sheet row_idx)) as [cfg|e] eqn:Hx; simpl;
      [|discriminate].
    pose proof (extract_truthy _ _ Hx) as Ht.
    destruct cfg as [|kv cfg]; simpl in *.
    + intros [= <-]. eapply step_empty; eauto.
    + intros [= <-]. fold (dict_set py_eqb s (kv :: cfg) (adUnits m)).
      rewrite dict_set_fresh by exact Hmem.
      eapply step_record; eauto. discriminate.
  - intros H. destruct H as [s Hs Hk|s Hs Hk Hm|s Hs Hk Hm Hx Hd
                            |s cfg Hs Hk Hm Hx Hd Hne];
      rewrite Hs; simpl; rewrite Hk; try reflexivity;
      rewrite Hm; try reflexivity; rewrite Hx; simpl; [reflexivity|].
    destruct cfg; [congruence|]. simpl.
    fold (dict_set py_eqb s (p :: cfg) (adUnits m)).
    now rewrite dict_set_fresh by exact Hm.
Qed.

Lemma row_loop_publisher sheet rows :
  forall m m',
  for_each (row_body sheet) rows m = Ok m' -> publisher m' = publisher m.
Proof.
  induction rows as [|i rows IH]; intros m m'; simpl.
  - now intros [= <-].
  - destruct (row_body sheet m i) as [m1|e] eqn:Hb; simpl; [|discriminate].
    intros H. rewrite (IH _ _ H).
    apply row_body_step in Hb. now destruct Hb.
Qed.

Lemma dict_mem_get_eq (V : Type) s k (d : dict value V) :
  py_eqb s k = true -> dict_mem py_eqb s d = dict_mem py_eqb k d.
Proof.
  apply dict_mem_congr; [apply py_eqb_sym | apply py_eqb_trans].
Qed.

(** Looking a key up after the loop: what was recorded before the loop
    stays; otherwise the first candidate row decides. *)
Lemma row_loop_get sheet k rows :
  forall m m',
  for_each (row_body sheet) rows m = Ok m' ->
  match dict_get py_eqb k (adUnits m) with
  | Some cfg => dict_get py_eqb k (adUnits m') = Some cfg
  | None =>
      match find (candidate sheet k) rows with
      | Some i => exists cfg, extract_ad_unit (sheet i) = Ok cfg /\
                              dict_get py_eqb k (adUnits m') = Some cfg
      | None => dict_get py_eqb k (adUnits m') = None
      end
  end.
Proof.
  induction rows as [|i rows IH]; intros m m'; simpl.
  - intros [= <-]. now destruct (dict_get py_eqb k (adUnits m)).
  - destruct (row_body sheet m i) as [m1|e] eqn:Hb; simpl; [|discriminate].
    intros H. specialize (IH _ _ H). apply row_body_step in Hb.
    unfold candidate at 1.
    destruct Hb as [s Hs Hk|s Hs Hk Hm|s Hs Hk Hm Hx Hd
                   |s cfg Hs Hk Hm Hx Hd Hne]; rewrite Hs, Hk; simpl.
    + exact IH.
    + destruct (dict_get py_eqb k (adUnits m)) eqn:Hget; [exact IH|].
      destruct (py_eqb s k) eqn:E; simpl; [|exact IH].
      rewrite (dict_mem_get_eq _ _ _ _ E), dict_mem_get, Hget in Hm.
      discriminate.
    + rewrite Hd, andb_false_r. exact IH.
    + rewrite Hd, andb_true_r.
      rewrite <- (dict_set_fresh _ _ py_eqb s cfg _ Hm) in IH.
      simpl in IH. rewrite py_dict_get_set in IH.
      destruct (py_eqb s k) eqn:E.
      * rewrite (dict_mem_get_eq _ _ _ _ E), dict_mem_get in Hm.
        destruct (dict_get py_eqb k (adUnits m)); [discriminate|].
        simpl. eauto.
      * simpl. exact IH.
Qed.

Lemma dict_mem_app (V : Type) k (d d' : dict value V) :
  dict_mem py_eqb k (d ++ d') = dict_mem py_eqb k d || dict_mem py_eqb k d'.
Proof. unfold dict_mem. apply existsb_app. Qed.

Lemma distinct_keys_append (V : Type) s (v : V) (d : dict value V) :
  distinct_keys d = true -> dict_mem py_eqb s d = false ->
  distinct_keys (d ++ [(s, v)]) = true.
Proof.
  induction d as [|[k v0] d IH]; simpl; [reflexivity|].
  rewrite andb_true_iff, negb_true_iff, orb_false_iff.
  intros [Hk Hd] [Hks Hs]. rewrite IH by assumption.
  rewrite dict_mem_app, Hk. simpl. rewrite py_eqb_sym, Hks. reflexivity.
Qed.

(** The row loop never records a slot pattern twice. *)
Lemma row_loop_distinct sheet rows :
  forall m m',
  for_each (row_body sheet) rows m = Ok m' ->
  distinct_keys (adUnits m) = true -> distinct_keys (adUnits m') = true.
Proof.
  induction rows as [|i rows IH]; intros m m'; simpl.
  - now intros [= <-].
  - destruct (row_body sheet m i) as [m1|e] eqn:Hb; simpl; [|discriminate].
    intros H Hd. apply (IH _ _ H). apply row_body_step in Hb.
    destruct Hb; try assumption. simpl. now apply distinct_keys_append.
Qed.

(** Every entry of adUnits is the slot pattern and the ad-unit object of an
    iterated row. *)
Lemma row_loop_entries sheet rows :
  forall m m',
  for_each (row_body sheet) rows m = Ok m' ->
  forall s cfg, In (s, cfg) (adUnits m') ->
  In (s, cfg) (adUnits m) \/
  exists i, In i rows /\ getitem (sheet i) 0 = Ok s /\
            extract_ad_unit (sheet i) = Ok cfg /\ cfg <> [].
Proof.
  induction rows as [|i rows IH]; intros m m'; simpl.
  - intros [= <-]. auto.
  - destruct (row_body sheet m i) as [m1|e] eqn:Hb; simpl; [|discriminate].
    intros H s cfg Hin. destruct (IH _ _ H s cfg Hin) as [Hm1|Hex].
    + apply row_body_step in Hb.
      destruct Hb as [s0 Hs0 Hk0|s0 Hs0 Hk0 Hm0|s0 Hs0 Hk0 Hm0 Hx Hd
                     |s0 cfg0 Hs0 Hk0 Hm0 Hx Hd Hne]; auto.
      simpl in Hm1. apply in_app_or in Hm1.
      destruct Hm1 as [Hm1|[[= <- <-]|[]]]; [auto|].
      right. exists i. auto.
    + right. destruct Hex as (j & Hj & Hrest). exists j. auto.
Qed.

Lemma convert_sheet_entries sheet m s cfg :
  convert_sheet sheet = Ok m -> In (s, cfg) (adUnits m) ->
  exists i, In i row_indices /\ getitem (sheet i) 0 = Ok s /\
            extract_ad_unit (sheet i) = Ok cfg /\ cfg <> [].
Proof.
  intros H Hin.
  destruct (row_loop_entries sheet row_indices _ _ H s cfg Hin) as [[]|Hex].
  exact Hex.
Qed.

(** ** Rows the converter accepts

    The loops raise only when a row is narrower than column R or when a
    float that [int()] rejects sits in a parameter cell. *)

Lemma getitem_ok (A : Type) (t : list A) i :
  0 <= i < Z.of_nat (List.length t) ->
  exists a, getitem t i = Ok a /\ In a t.
Proof.
  intros Hi. unfold getitem.
  destruct (i <? 0) eqn:E; [lia|].
  replace ((i <? 0) || (Z.of_nat (List.length t) <=? i)) with false by lia.
  destruct (nth_error t (Z.to_nat i)) as [a|] eqn:Hn.
  - exists a. split; [reflexivity|]. eapply nth_error_In; eauto.
  - apply nth_error_None in Hn. lia.
Qed.

Lemma coerce_total p v :
  finite_value v = true -> exists v', coerce p v = Ok v'.
Proof.
  unfold coerce. intros Hv.
  destruct (isinstance_float v && negb (p =? "bidonmultiformat")%string).
  - destruct v as [| | |f|]; eauto.
    destruct f; simpl in *; try discriminate; eauto.
  - destruct (p =? "bidonmultiformat")%string; eauto.
Qed.

Lemma param_loop_total row columns :
  forallb finite_value row = true ->
  Forall (fun item => 1 <= snd item <= Z.of_nat (List.length row)) columns ->
  forall st, exists st', for_each (param_body row) columns st = Ok st'.
Proof.
  intros Hfin Hcols. induction Hcols as [|[p c] columns Hc _ IH];
    intros [ps hd]; simpl; [eauto|].
  destruct (getitem_ok _ row (c - 1)) as (v & Hv & Hin); [simpl in Hc; lia|].
  rewrite forallb_forall in Hfin.
  destruct (coerce_total p v (Hfin v Hin)) as [v' Hv'].
  unfold param_body at 1. rewrite Hv. simpl.
  destruct (cell_present v); [rewrite Hv'|]; simpl; apply IH.
Qed.

Lemma bidder_columns_range :
  Forall (fun item => Forall (fun pc => 1 <= snd pc <= 18) (snd item))
         bidder_columns.
Proof. repeat constructor; simpl; lia. Qed.

Lemma extract_total row :
  row_ok row = true -> exists cfg, extract_ad_unit row = Ok cfg.
Proof.
  unfold row_ok, extract_ad_unit. rewrite andb_true_iff, Z.leb_le.
  intros [Hlen Hfin]. generalize (@nil (string * bidder_params)).
  pose proof bidder_columns_range as Hr.
  induction Hr as [|[b columns] bidders Hc _ IH]; intros cfg; simpl; [eauto|].
  destruct (param_loop_total row columns Hfin) with (st := (@nil (string * value), false))
    as [[ps hd] Hloop].
  { eapply Forall_impl; [|exact Hc]. simpl. intros; lia. }
  unfold bidder_body at 1. rewrite Hloop. simpl.
  destruct hd; apply IH.
Qed.

Lemma row_body_total sheet m row_idx :
  row_ok (sheet row_idx) = true -> exists m', row_body sheet m row_idx = Ok m'.
Proof.
  intros Hok. destruct (extract_total _ Hok) as [cfg Hx].
  unfold row_ok in Hok. rewrite andb_true_iff, Z.leb_le in Hok.
  destruct (getitem_ok _ (sheet row_idx) 0) as (s & Hs & _); [lia|].
  unfold row_body. rewrite Hs. simpl.
  destruct (skip_slot s); [eauto|].
  destruct (dict_mem py_eqb s (adUnits m)); [eauto|].
  rewrite Hx. simpl. destruct (dict_truthy cfg); eauto.
Qed.

Lemma row_loop_total sheet rows :
  forallb (fun i => row_ok (sheet i)) rows = true ->
  forall m, exists m', for_each (row_body sheet) rows m = Ok m'.
Proof.
  induction rows as [|i rows IH]; simpl; intros H m; [eauto|].
  apply andb_true_iff in H. destruct H as [Hi Hrows].
  destruct (row_body_total sheet m i Hi) as [m1 Hb]. rewrite Hb. simpl.
  now apply IH.
Qed.

(** The converter returns a mapping on every sheet of accepted rows. *)
Lemma convert_sheet_total sheet :
  sheet_ok sheet = true -> exists m, convert_sheet sheet = Ok m.
Proof. intros H. now apply row_loop_total. Qed.

(** ** Bidder entries of an ad unit *)

Lemma cell_present_iff v : cell_present v = true <-> nonblank_cell v.
Proof.
  unfold cell_present, nonblank_cell.
  destruct v as [|s|z|f|b]; simpl;
    try (split; [intros _; split; [discriminate | intros ? [=]] | reflexivity]).
  - split; [discriminate | intros [H _]; congruence].
  - rewrite strip_nonempty_iff. split.
    + intros H. split; [discriminate|]. now intros ? [= <-].
    + intros [_ H]. now apply H.
Qed.

Lemma columns_have_data_iff row columns :
  columns_have_data row columns = true <->
  exists p c v, In (p, c) columns /\ getitem row (c - 1) = Ok v /\
                nonblank_cell v.
Proof.
  unfold columns_have_data. rewrite existsb_exists. split.
  - intros ([p c] & Hin & Hp). unfold present_at in Hp. simpl in Hp.
    destruct (getitem row (c - 1)) as [v|e] eqn:Hv; [|discriminate].
    exists p, c, v. now rewrite <- cell_present_iff.
  - intros (p & c & v & Hin & Hv & Hp). exists (p, c). split; [exact Hin|].
    unfold present_at. simpl. rewrite Hv. now apply cell_present_iff.
Qed.

(** C1. In the ad-unit object extracted from a row, the key of a configured
    bidder is present if and only if one of the bidder's configured parameter
    cells of that row holds a value that is neither empty nor white space
    only. *)
Theorem bidder_key_iff_cell_present row cfg bidder columns :
  extract_ad_unit row = Ok cfg ->
  In (bidder, columns) bidder_columns ->
  (dict_mem String.eqb bidder cfg = true <->
   exists p c v, In (p, c) columns /\ getitem row (c - 1) = Ok v /\
                 nonblank_cell v).
Proof.
  intros Hx Hin. rewrite <- columns_have_data_iff, dict_mem_get.
  destruct (extract_get _ _ _ _ Hx Hin) as (ps & _ & Hget).
  destruct (columns_have_data row columns); rewrite Hget;
    split; congruence.
Qed.

Lemma bidder_key_iff_cell_present_witness :
  dict_mem String.eqb "kargo"
    [("rubicon", [("accountId", VInt 26298); ("siteId", VInt 556630);
                  ("zoneId", VInt 3767184);
                  ("bidonmultiformat", VBool true)]);
     ("kargo", [("placementId", VStr (lit "_o5JqmWmgs"))])]%string = true <->
  exists p c v, In (p, c) [("placementId", 10)]%string /\
                getitem (sample_sheet 3) (c - 1) = Ok v /\ nonblank_cell v.
Proof.
  apply (bidder_key_iff_cell_present (sample_sheet 3)).
  - vm_compute. reflexivity.
  - simpl. tauto.
Defined.

(** ** Coercion of numbers *)

(** C2. When a parameter cell of a row holds a number, the field written for
    it is an integer, the number itself or the float truncated by [int]; the
    field of [bidonmultiformat] is instead the truth value of the cell. *)
Theorem numeric_cell_coerced row cfg bidder columns p c v :
  extract_ad_unit row = Ok cfg ->
  In (bidder, columns) bidder_columns ->
  In (p, c) columns ->
  getitem row (c - 1) = Ok v ->
  is_number v = true ->
  exists ps,
    dict_get String.eqb bidder cfg = Some ps /\
    if (p =? "bidonmultiformat")%string
    then dict_get String.eqb p ps = Some (VBool (truthy v))
    else exists z,
        dict_get String.eqb p ps = Some (VInt z) /\
        (v = VInt z \/ exists f, v = VFloat f /\ int_of_float f = Ok z).
Proof.
  intros Hx Hb Hp Hv Hnum.
  assert (Hpres : cell_present v = true) by now destruct v.
  assert (Hdata : columns_have_data row columns = true).
  { apply columns_have_data_iff. exists p, c, v.
    now rewrite <- cell_present_iff. }
  destruct (extract_get _ _ _ _ Hx Hb) as (ps & Hloop & Hget).
  rewrite Hdata in Hget, Hloop. exists ps. split; [exact Hget|].
  pose proof (proj2 bidder_columns_nodup) as Hnd.
  rewrite Forall_forall in Hnd. specialize (Hnd _ Hb). simpl in Hnd.
  destruct (param_loop_get row columns Hnd _ _ _ _ Hloop) as [_ Hcells].
  destruct (Hcells p c Hp) as (v0 & Hv0 & Hres).
  rewrite Hv in Hv0. injection Hv0 as <-. rewrite Hpres in Hres.
  destruct Hres as (v' & Hco & Hps). rewrite Hps. unfold coerce in Hco.
  destruct (p =? "bidonmultiformat")%string.
  - rewrite andb_false_r in Hco. congruence.
  - rewrite andb_true_r in Hco.
    destruct v as [| |z|f|]; try discriminate; simpl in Hco.
    + exists z. split; [congruence | now left].
    + destruct (int_of_float f) as [z|e] eqn:Hz; simpl in Hco;
        [|discriminate].
      exists z. split; [congruence | right; eauto].
Qed.

Lemma numeric_cell_coerced_witness :
  exists ps,
    dict_get String.eqb "rubicon"
      [("rubicon", [("accountId", VInt 26298); ("siteId", VInt 556630);
                    ("zoneId", VInt 3767184);
                    ("bidonmultiformat", VBool true)]);
       ("kargo", [("placementId", VStr (lit "_o5JqmWmgs"))])]%string
    = Some ps /\
    exists z,
      dict_get String.eqb "accountId" ps = Some (VInt z) /\
      (VFloat (S754_finite false 7228739196813312 (-38)) = VInt z \/
       exists f, VFloat (S754_finite false 7228739196813312 (-38)) = VFloat f
                 /\ int_of_float f = Ok z).
Proof.
  apply (numeric_cell_coerced (sample_sheet 3) _ "rubicon"
           [("accountId", 6); ("siteId", 7); ("zoneId", 8);
            ("bidonmultiformat", 9)]%string "accountId" 6).
  - vm_compute. reflexivity.
  - simpl. tauto.
  - simpl. tauto.
  - vm_compute. reflexivity.
  - reflexivity.
Defined.

(** ** Repeated slot patterns *)

(** C3, as stated, fails: a first occurrence without bidder data is not
    recorded, and the next occurrence with data is. *)
Lemma first_occurrence_wins_counterexample :
  ~ first_occurrence_wins late_data_sheet.
Proof.
  intros H.
  specialize (H _ (VStr (lit "billboard")) 3 [4]
                [("kargo", [("placementId", VStr (lit "_k1"))])]
                eq_refl eq_refl).
  assert (E : extract_ad_unit (late_data_sheet 3)
              = Ok [("kargo", [("placementId", VStr (lit "_k1"))])]).
  { apply H; [discriminate | reflexivity]. }
  vm_compute in E. discriminate.
Qed.

(** C3, amended. The entry of a slot pattern holds exactly the data extracted
    from the first iterated row (rows 3-13, then 19-29) that has this slot
    pattern and a bidder with data; the other rows with this slot pattern
    contribute nothing (no slot pattern is recorded twice), and without such
    a row there is no entry. *)
Theorem first_row_with_data_wins sheet m k :
  convert_sheet sheet = Ok m ->
  distinct_keys (adUnits m) = true /\
  match find (candidate sheet k) row_indices with
  | Some i => exists cfg, extract_ad_unit (sheet i) = Ok cfg /\
                          dict_get py_eqb k (adUnits m) = Some cfg
  | None => dict_get py_eqb k (adUnits m) = None
  end.
Proof.
  intros H. split.
  - now apply (row_loop_distinct sheet row_indices _ _ H).
  - exact (row_loop_get sheet k row_indices _ _ H).
Qed.

Lemma first_row_with_data_wins_witness :
  distinct_keys
    [(VStr (lit "billboard"),
      [("kargo", [("placementId", VStr (lit "_k1"))])])] = true /\
  exists cfg,
    extract_ad_unit (late_data_sheet 4) = Ok cfg /\
    dict_get py_eqb (VStr (lit "billboard"))
      [(VStr (lit "billboard"),
        [("kargo", [("placementId", VStr (lit "_k1"))])])]
    = Some cfg.
Proof.
  apply (first_row_with_data_wins late_data_sheet
           (set_adUnits initial_mapping _) (VStr (lit "billboard"))).
  vm_compute. reflexivity.
Defined.

(** ** Skipped rows *)

Lemma skip_slot_empty_or_header s :
  s = VNone \/ s = VStr [] \/ s = VStr (lit "Slot Pattern") ->
  skip_slot s = true.
Proof. intros [->|[->| ->]]; reflexivity. Qed.

(** C4. A row whose slot-pattern cell is empty or holds the header text
    "Slot Pattern" leaves the mapping as it is, and the loop gives the same
    result with and without this row. *)
Theorem skipped_row_contributes_nothing sheet row_idx s :
  getitem (sheet row_idx) 0 = Ok s ->
  s = VNone \/ s = VStr [] \/ s = VStr (lit "Slot Pattern") ->
  (forall m, row_body sheet m row_idx = Ok m) /\
  (forall before after m,
     for_each (row_body sheet) (before ++ row_idx :: after) m
     = for_each (row_body sheet) (before ++ after) m).
Proof.
  intros Hs Hskip. apply skip_slot_empty_or_header in Hskip.
  assert (Hbody : forall m, row_body sheet m row_idx = Ok m).
  { intros m. apply row_body_step. eapply step_skip; eauto. }
  split; [exact Hbody|].
  intros before after m. rewrite !for_each_app.
  destruct (for_each (row_body sheet) before m) as [m1|e]; simpl;
    [|reflexivity].
  now rewrite Hbody.
Qed.

Lemma skipped_row_contributes_nothing_witness :
  (forall m, row_body sample_sheet m 13 = Ok m) /\
  (forall before after m,
     for_each (row_body sample_sheet) (before ++ 13 :: after) m
     = for_each (row_body sample_sheet) (before ++ after) m).
Proof.
  apply (skipped_row_contributes_nothing sample_sheet 13
           (VStr (lit "Slot Pattern"))).
  - reflexivity.
  - right. right. reflexivity.
Defined.

(** ** Three populated rows, one of them a duplicate *)

Lemma unpopulated_row_skipped sheet m row_idx :
  row_ok (sheet row_idx) = true ->
  populated sheet row_idx = false ->
  row_body sheet m row_idx = Ok m.
Proof.
  intros Hok Hpop. destruct (row_body_total sheet m row_idx Hok) as [m' Hb].
  rewrite Hb. f_equal. apply row_body_step in Hb.
  destruct Hb as [s Hs Hk|s Hs Hk Hm|s Hs Hk Hm Hx Hd
                 |s cfg Hs Hk Hm Hx Hd Hne]; try reflexivity.
  unfold populated in Hpop. rewrite Hs, Hk, Hd in Hpop. discriminate.
Qed.

Lemma populated_row_step sheet m row_idx :
  row_ok (sheet row_idx) = true ->
  populated sheet row_idx = true ->
  exists cfg,
    extract_ad_unit (sheet row_idx) = Ok cfg /\
    row_body sheet m row_idx
    = Ok (if dict_mem py_eqb (slot_of sheet row_idx) (adUnits m) then m
          else set_adUnits m (adUnits m ++ [(slot_of sheet row_idx, cfg)])).
Proof.
  intros Hok Hpop. destruct (extract_total _ Hok) as [cfg Hx].
  exists cfg. split; [exact Hx|].
  destruct (row_body_total sheet m row_idx Hok) as [m' Hb].
  rewrite Hb. f_equal. apply row_body_step in Hb.
  unfold populated in Hpop. unfold slot_of.
  destruct Hb as [s Hs Hk|s Hs Hk Hm|s Hs Hk Hm Hx' Hd
                 |s cfg' Hs Hk Hm Hx' Hd Hne];
    rewrite Hs in *; try rewrite Hm; try reflexivity.
  - rewrite Hk in Hpop. discriminate.
  - rewrite Hk, Hd in Hpop. discriminate.
  - congruence.
Qed.

(** C5. On a sheet of accepted rows with exactly three populated rows, two
    of them with different slot patterns and the third repeating the slot
    pattern of one that comes before it, the converter returns a mapping
    whose adUnits has exactly two keys, built from the two first rows only:
    its parameter values are those extracted from these two rows, none comes
    from the repeating row. *)
Theorem three_rows_one_duplicate sheet a b d :
  sheet_ok sheet = true ->
  py_eqb (slot_of sheet a) (slot_of sheet b) = false ->
  (filter (populated sheet) row_indices = [a; b; d] /\
   (py_eqb (slot_of sheet a) (slot_of sheet d) = true \/
    py_eqb (slot_of sheet b) (slot_of sheet d) = true))
  \/ (filter (populated sheet) row_indices = [a; d; b] /\
      py_eqb (slot_of sheet a) (slot_of sheet d) = true) ->
  exists m ca cb,
    convert_sheet sheet = Ok m /\
    extract_ad_unit (sheet a) = Ok ca /\
    extract_ad_unit (sheet b) = Ok cb /\
    adUnits m = [(slot_of sheet a, ca); (slot_of sheet b, cb)] /\
    List.length (dict_keys (adUnits m)) = 2%nat /\
    mapping_values m = unit_values ca ++ unit_values cb.
Proof.
  intros Hok Hab Hrows. unfold sheet_ok in Hok. rewrite forallb_forall in Hok.
  assert (Hfilter : convert_sheet sheet
            = for_each (row_body sheet)
                       (filter (populated sheet) row_indices) initial_mapping).
  { unfold convert_sheet.
    apply (for_each_filter (row_body sheet) (populated sheet)
                           (fun _ => True)); auto.
    intros m i _ Hi Hpop. now apply unpopulated_row_skipped; auto. }
  assert (Hpop : forall i, In i (filter (populated sheet) row_indices) ->
                 row_ok (sheet i) = true /\ populated sheet i = true).
  { intros i Hi. apply filter_In in Hi. destruct Hi. auto. }
  rewrite Hfilter.
  assert (Hstep : forall i m, row_ok (sheet i) = true ->
            populated sheet i = true ->
            exists cfg, extract_ad_unit (sheet i) = Ok cfg /\
              row_body sheet m i
              = Ok (if dict_mem py_eqb (slot_of sheet i) (adUnits m) then m
                    else set_adUnits m
                           (adUnits m ++ [(slot_of sheet i, cfg)])))
    by (intros; now apply populated_row_step).
  destruct Hrows as [[Hl Hd]|[Hl Hd]]; rewrite Hl in *;
    destruct (Hpop a) as [Hoka Hpa]; simpl; auto;
    destruct (Hpop b) as [Hokb Hpb]; simpl; auto;
    destruct (Hpop d) as [Hokd Hpd]; simpl; auto;
    destruct (Hstep a initial_mapping Hoka Hpa) as (ca & Hxa & Ha);
    rewrite Ha; simpl.
  - match goal with
    | |- context [row_body sheet ?m b] =>
        destruct (Hstep b m Hokb Hpb) as (cb & Hxb & Hb)
    end.
    rewrite Hb; simpl. rewrite Hab; simpl.
    match goal with
    | |- context [row_body sheet ?m d] =>
        destruct (Hstep d m Hokd Hpd) as (cd & _ & Hdd)
    end.
    rewrite Hdd; simpl.
    replace (py_eqb (slot_of sheet a) (slot_of sheet d)
             || (py_eqb (slot_of sheet b) (slot_of sheet d) || false))
      with true by (destruct Hd as [-> | ->]; now rewrite ?orb_true_r).
    eexists _, ca, cb. repeat split; try assumption; try reflexivity.
    unfold mapping_values. simpl. now rewrite app_nil_r.
  - match goal with
    | |- context [row_body sheet ?m d] =>
        destruct (Hstep d m Hokd Hpd) as (cd & _ & Hdd)
    end.
    rewrite Hdd; simpl. rewrite Hd; simpl.
    match goal with
    | |- context [row_body sheet ?m b] =>
        destruct (Hstep b m Hokb Hpb) as (cb & Hxb & Hb)
    end.
    rewrite Hb; simpl. rewrite Hab; simpl.
    eexists _, ca, cb. repeat split; try assumption; try reflexivity.
    unfold mapping_values. simpl. now rewrite app_nil_r.
Qed.

Lemma three_rows_one_duplicate_witness :
  exists m ca cb,
    convert_sheet sample_sheet = Ok m /\
    extract_ad_unit (sample_sheet 3) = Ok ca /\
    extract_ad_unit (sample_sheet 4) = Ok cb /\
    adUnits m = [(slot_of sample_sheet 3, ca); (slot_of sample_sheet 4, cb)] /\
    List.length (dict_keys (adUnits m)) = 2%nat /\
    mapping_values m = unit_values ca ++ unit_values cb.
Proof.
  apply (three_rows_one_duplicate sample_sheet 3 4 19).
  - reflexivity.
  - reflexivity.
  - left. split; [reflexivity | left; reflexivity].
Defined.

(** The sample sheet, converted: the two cells of the repeating row 19 are
    nowhere in the result. *)
Example sample_sheet_converted :
  exists m,
    convert_sheet sample_sheet = Ok m /\
    adUnits m =
      [(VStr (lit "billboard"),
        [("rubicon", [("accountId", VInt 26298); ("siteId", VInt 556630);
                      ("zoneId", VInt 3767184);
                      ("bidonmultiformat", VBool true)]);
         ("kargo", [("placementId", VStr (lit "_o5JqmWmgs"))])]);
       (VStr (lit "leaderboard"),
        [("sovrn", [("tagid", VInt 1294952)]);
         ("pubmatic", [("publisherId", VStr (lit "166938"))])])] /\
    existsb (py_eqb (VStr (lit "_mobileDup"))) (mapping_values m) = false /\
    existsb (py_eqb (VStr (lit "dup_code"))) (mapping_values m) = false.
Proof. eexists. repeat split. Qed.

(** ** Publisher record *)

(** C6. The publisher record of the returned mapping is the one the mapping
    is built with: the row loop never changes it, whatever it records in
    adUnits, and defaultBidders is the fixed list of seven names. *)
Theorem publisher_fixed (load_workbook : string -> result workbook)
        excel_file m :
  convert_excel_to_json load_workbook excel_file = Ok m ->
  publisher m = publisher initial_mapping /\
  publisherId (publisher m) = "icisic-media" /\
  domain (publisher m) = "totalprosports.com" /\
  defaultBidders (publisher m)
  = ["rubicon"; "kargo"; "sovrn"; "oms"; "aniview"; "pubmatic"; "triplelift"].
Proof.
  unfold convert_excel_to_json.
  destruct (load_workbook excel_file) as [wb|e]; cbn [bind]; [|discriminate].
  destruct (wb_getitem wb (lit "PLACEMENTS")) as [sheet|e]; cbn [bind];
    [|discriminate].
  unfold convert_sheet. intros H. apply row_loop_publisher in H.
  rewrite H. now repeat split.
Qed.

Lemma publisher_fixed_witness :
  let m := set_adUnits initial_mapping
             [(VStr (lit "billboard"),
               [("kargo", [("placementId", VStr (lit "_k1"))])])] in
  publisher m = publisher initial_mapping /\
  publisherId (publisher m) = "icisic-media" /\
  domain (publisher m) = "totalprosports.com" /\
  defaultBidders (publisher m)
  = ["rubicon"; "kargo"; "sovrn"; "oms"; "aniview"; "pubmatic"; "triplelift"].
Proof.
  apply (publisher_fixed
           (fun _ => Ok [(lit "PLACEMENTS", late_data_sheet)]) "book.xlsx").
  vm_compute. reflexivity.
Defined.

(** ** Recording an ad unit *)

(** C7. When a row is processed (its slot pattern passes the test of line 53
    and is not yet a key of adUnits), the slot pattern is recorded with the
    row's ad-unit object if and only if some bidder of that object has a
    non-empty parameter set; when no bidder has data the mapping is left as
    it is. *)
Theorem recorded_iff_bidder_data sheet m row_idx s m' :
  getitem (sheet row_idx) 0 = Ok s ->
  skip_slot s = false ->
  dict_mem py_eqb s (adUnits m) = false ->
  row_body sheet m row_idx = Ok m' ->
  exists cfg,
    extract_ad_unit (sheet row_idx) = Ok cfg /\
    (adUnits m' = adUnits m ++ [(s, cfg)] <->
     exists bidder ps, In (bidder, ps) cfg /\ ps <> []) /\
    (any_bidder_data (sheet row_idx) = false -> m' = m) /\
    (any_bidder_data (sheet row_idx) = true ->
     exists bidder ps, In (bidder, ps) cfg /\ ps <> []).
Proof.
  intros Hs Hk Hm Hb. apply row_body_step in Hb.
  destruct Hb as [s0 Hs0 Hk0|s0 Hs0 Hk0 Hm0|s0 Hs0 Hk0 Hm0 Hx Hd
                 |s0 cfg Hs0 Hk0 Hm0 Hx Hd Hne];
    rewrite Hs in Hs0; injection Hs0 as <-; try congruence.
  - exists []. split; [exact Hx|]. repeat split.
    + intros E. apply (f_equal (@List.length _)) in E.
      rewrite length_app in E. simpl in E. lia.
    + intros (b & ps & [] & _).
    + congruence.
  - exists cfg. split; [exact Hx|]. repeat split.
    + intros _. destruct cfg as [|[b ps] cfg]; [congruence|].
      exists b, ps. split; [now left|].
      eapply extract_nonempty_params; [exact Hx | now left].
    + congruence.
    + intros _. destruct cfg as [|[b ps] cfg]; [congruence|].
      exists b, ps. split; [now left|].
      eapply extract_nonempty_params; [exact Hx | now left].
Qed.

Lemma recorded_iff_bidder_data_witness :
  exists cfg,
    extract_ad_unit (late_data_sheet 4) = Ok cfg /\
    (adUnits (set_adUnits initial_mapping
                [(VStr (lit "billboard"),
                  [("kargo", [("placementId", VStr (lit "_k1"))])])])
     = adUnits initial_mapping ++ [(VStr (lit "billboard"), cfg)] <->
     exists bidder ps, In (bidder, ps) cfg /\ ps <> []) /\
    (any_bidder_data (late_data_sheet 4) = false ->
     set_adUnits initial_mapping
       [(VStr (lit "billboard"),
         [("kargo", [("placementId", VStr (lit "_k1"))])])]
     = initial_mapping) /\
    (any_bidder_data (late_data_sheet 4) = true ->
     exists bidder ps, In (bidder, ps) cfg /\ ps <> []).
Proof.
  apply (recorded_iff_bidder_data late_data_sheet initial_mapping 4
           (VStr (lit "billboard"))).
  - reflexivity.
  - reflexivity.
  - reflexivity.
  - vm_compute. reflexivity.
Defined.

(** ** Missing sheet *)

Lemma wb_getitem_missing wb name :
  (forall title sheet, In (title, sheet) wb -> title <> name) ->
  wb_getitem wb name = Raise KeyError.
Proof.
  induction wb as [|[title sheet] wb IH]; simpl; intros H; [reflexivity|].
  destruct (pystr_eqb title name) eqn:E.
  - apply pystr_eqb_eq in E. exfalso. apply (H title sheet); auto.
  - apply IH. intros t sh Hin. apply (H t sh). now right.
Qed.

(** C8. When the workbook read from the file has no sheet titled
    "PLACEMENTS", the converter raises the [KeyError] of the sheet
    selection and returns no mapping; nothing catches it, so the script ends
    with it before writing or printing anything. *)
Theorem missing_sheet_raises (load_workbook : string -> result workbook)
        excel_file wb :
  load_workbook excel_file = Ok wb ->
  (forall title sheet, In (title, sheet) wb -> title <> lit "PLACEMENTS") ->
  convert_excel_to_json load_workbook excel_file = Raise KeyError /\
  (excel_file = "docs/integrations/tps-onboarding.xlsx" ->
   forall open_w out, main load_workbook open_w out = (out, Raise KeyError)).
Proof.
  intros Hload Hwb.
  assert (H : convert_excel_to_json load_workbook excel_file = Raise KeyError).
  { unfold convert_excel_to_json. rewrite Hload. cbn [bind].
    now rewrite wb_getitem_missing. }
  split; [exact H|].
  intros -> open_w out. unfold main, io_bind, lift. now rewrite H.
Qed.

Lemma missing_sheet_raises_witness :
  let load_workbook := fun _ : string => Ok [(lit "Sheet1", sample_sheet)] in
  convert_excel_to_json load_workbook "docs/integrations/tps-onboarding.xlsx"
  = Raise KeyError /\
  ("docs/integrations/tps-onboarding.xlsx"
   = "docs/integrations/tps-onboarding.xlsx" ->
   forall open_w out, main load_workbook open_w out = (out, Raise KeyError)).
Proof.
  apply (missing_sheet_raises
           (fun _ : string => Ok [(lit "Sheet1", sample_sheet)])
           "docs/integrations/tps-onboarding.xlsx"
           [(lit "Sheet1", sample_sheet)]).
  - reflexivity.
  - intros title sheet [[= <- _]|[]]. vm_compute. discriminate.
Defined.

(** ** White-space slot patterns *)

Lemma blank_not_header s : blank s -> pystr_eqb s (lit "Slot Pattern") = false.
Proof.
  intros Hb. apply not_true_iff_false. rewrite pystr_eqb_eq. intros ->.
  specialize (Hb 83%N). assert (E : isspace 83 = true).
  { apply Hb. vm_compute. tauto. }
  vm_compute in E. discriminate.
Qed.

(** C9. A slot-pattern cell holding a non-empty string of white space does
    not trigger the test of line 53, although the same string in a parameter
    cell counts as absent; when the string is not yet a key and some bidder
    has data in the row, the string itself becomes a key of adUnits. *)
Theorem whitespace_slot_recorded sheet row_idx s :
  getitem (sheet row_idx) 0 = Ok (VStr s) ->
  s <> [] -> blank s ->
  skip_slot (VStr s) = false /\
  cell_present (VStr s) = false /\
  forall m m',
    dict_mem py_eqb (VStr s) (adUnits m) = false ->
    any_bidder_data (sheet row_idx) = true ->
    row_body sheet m row_idx = Ok m' ->
    exists cfg,
      extract_ad_unit (sheet row_idx) = Ok cfg /\
      adUnits m' = adUnits m ++ [(VStr s, cfg)] /\
      In (VStr s) (dict_keys (adUnits m')).
Proof.
  intros Hs Hne Hblank.
  assert (Hskip : skip_slot (VStr s) = false).
  { unfold skip_slot. simpl. rewrite (blank_not_header _ Hblank).
    destruct s; [congruence | reflexivity]. }
  split; [exact Hskip|]. split.
  { apply not_true_iff_false. rewrite cell_present_iff.
    intros [_ H]. now apply (H s). }
  intros m m' Hmem Hdata Hb. apply row_body_step in Hb.
  destruct Hb as [s0 Hs0 Hk0|s0 Hs0 Hk0 Hm0|s0 Hs0 Hk0 Hm0 Hx Hd
                 |s0 cfg Hs0 Hk0 Hm0 Hx Hd Hne'];
    rewrite Hs in Hs0; injection Hs0 as <-; try congruence.
  exists cfg. split; [exact Hx|]. split; [reflexivity|].
  unfold dict_keys. simpl. rewrite map_app. apply in_or_app. right. now left.
Qed.

Lemma whitespace_slot_recorded_witness :
  skip_slot (VStr (lit "  ")) = false /\
  cell_present (VStr (lit "  ")) = false /\
  forall m m',
    dict_mem py_eqb (VStr (lit "  ")) (adUnits m) = false ->
    any_bidder_data (spaces_sheet 3) = true ->
    row_body spaces_sheet m 3 = Ok m' ->
    exists cfg,
      extract_ad_unit (spaces_sheet 3) = Ok cfg /\
      adUnits m' = adUnits m ++ [(VStr (lit "  "), cfg)] /\
      In (VStr (lit "  ")) (dict_keys (adUnits m')).
Proof.
  apply (whitespace_slot_recorded spaces_sheet 3 (lit "  ")).
  - reflexivity.
  - discriminate.
  - intros c [<-|[<-|[]]]; reflexivity.
Defined.

Example spaces_sheet_converted :
  exists m,
    convert_sheet spaces_sheet = Ok m /\
    adUnits m = [(VStr (lit "  "),
                  [("kargo", [("placementId", VStr (lit "_k1"))])])].
Proof. eexists. split; reflexivity. Qed.

(** ** The summary *)

Lemma io_for_ok (A : Type) (body : A -> io unit) xs :
  (forall x out, exists out', body x out = (out', Ok tt)) ->
  forall out, exists out', io_for body xs out = (out', Ok tt).
Proof.
  intros Hbody. induction xs as [|x xs IH]; intros out; simpl.
  - unfold io_ret. eauto.
  - unfold io_bind. destruct (Hbody x out) as [out1 ->]. apply IH.
Qed.

(** The summary completes as soon as one ad unit is there. *)
Lemma summary_ok_on_nonempty m out :
  adUnits m <> [] -> exists out', print_summary m out = (out', Ok tt).
Proof.
  intros Hne. unfold print_summary, io_bind, print, emit, lift.
  destruct (adUnits m) as [|[k u] d] eqn:E; [congruence|].
  cbn [dict_keys List.map getitem List.length nth_error fst snd].
  apply io_for_ok. intros x o. unfold print, emit. eauto.
Qed.

(** C10. On a mapping whose adUnits is empty the summary prints its first
    four lines and then fails with [IndexError] on taking the first key:
    nothing guards the sample against an empty adUnits. *)
Theorem summary_fails_on_empty m out :
  adUnits m = [] ->
  print_summary m out
  = (out ++ [Printed LGenerated; Printed (LCount 0);
             Printed (LBidders 0 []); Printed LSampleHeader],
     Raise IndexError).
Proof.
  intros E. unfold print_summary, io_bind, print, emit, lift.
  rewrite E. simpl. now rewrite <- !app_assoc.
Qed.

Lemma summary_fails_on_empty_witness :
  print_summary initial_mapping []
  = ([] ++ [Printed LGenerated; Printed (LCount 0);
            Printed (LBidders 0 []); Printed LSampleHeader],
     Raise IndexError).
Proof. apply (summary_fails_on_empty initial_mapping []). reflexivity. Defined.

(** A workbook whose PLACEMENTS sheet is blank reaches that failure: the
    file is written, four lines are printed and the script ends with
    [IndexError]. *)
Example main_on_blank_sheet :
  main (fun _ => Ok [(lit "PLACEMENTS", blank_sheet)]) (fun _ => Ok tt) []
  = ([FileWritten "config/bizbudding-all-bidders-mapping.json"
        initial_mapping;
      Printed LGenerated; Printed (LCount 0); Printed (LBidders 0 []);
      Printed LSampleHeader],
     Raise IndexError).
Proof. reflexivity. Qed.

(** * Further properties of the converter *)

(** ** When the extraction raises *)

Lemma getitem_raise (A : Type) (t : list A) i e :
  0 <= i -> getitem t i = Raise e ->
  e = IndexError /\ Z.of_nat (List.length t) <= i.
Proof.
  intros Hi. unfold getitem.
  replace (i <? 0) with false by lia.
  destruct (Z.of_nat (List.length t) <=? i) eqn:E.
  - rewrite orb_true_r. intros [= <-]. split; [reflexivity | lia].
  - replace (i <? 0) with false by lia. simpl.
    destruct (nth_error t (Z.to_nat i)) eqn:Hn; [discriminate|].
    apply nth_error_None in Hn. lia.
Qed.

Lemma coerce_ok_iff p v :
  (exists v', coerce p v = Ok v') <->
  (p =? "bidonmultiformat")%string || finite_value v = true.
Proof.
  unfold coerce. destruct (p =? "bidonmultiformat")%string; simpl.
  - rewrite andb_false_r. split; eauto.
  - rewrite andb_true_r.
    destruct v as [| | |[sg|sg| |sg mm ee]|]; simpl;
      split; eauto; try discriminate; intros [v' H]; discriminate.
Qed.

Lemma coerce_raise p v e :
  coerce p v = Raise e ->
  (p =? "bidonmultiformat")%string = false /\
  ((e = OverflowError /\ exists sg, v = VFloat (S754_infinity sg)) \/
   (e = ValueError /\ v = VFloat S754_nan)).
Proof.
  unfold coerce. destruct (p =? "bidonmultiformat")%string; simpl.
  - rewrite andb_false_r. discriminate.
  - rewrite andb_true_r.
    destruct v as [| | |[sg|sg| |sg mm ee]|]; simpl; try discriminate;
      intros [= <-]; split; eauto.
Qed.

Lemma absent_cell_finite v : cell_present v = false -> finite_value v = true.
Proof. now destruct v as [| | |[]|]. Qed.

Lemma param_body_accepted row st item :
  (exists st', param_body row st item = Ok st') <->
  cell_accepted row item = true.
Proof.
  destruct st as [ps hd], item as [p c]. unfold param_body, cell_accepted.
  simpl. destruct (getitem row (c - 1)) as [v|e]; simpl.
  - destruct (cell_present v) eqn:Hp.
    + rewrite <- coerce_ok_iff. destruct (coerce p v) as [v'|e]; simpl.
      * split; eauto.
      * split; intros [x H]; discriminate.
    + rewrite (absent_cell_finite _ Hp), orb_true_r. split; eauto.
  - split; [intros [x H]|]; discriminate.
Qed.

Lemma param_loop_accepted row columns :
  forall st,
  (exists st', for_each (param_body row) columns st = Ok st') <->
  forallb (cell_accepted row) columns = true.
Proof.
  induction columns as [|item columns IH]; intros st; simpl.
  - split; eauto.
  - rewrite andb_true_iff, <- (param_body_accepted row st item).
    destruct (param_body row st item) as [st1|e]; simpl.
    + rewrite IH. split; [intros H; split; eauto | tauto].
    + split; [intros [x H]; discriminate | intros [[x H] _]; discriminate].
Qed.

Lemma bidder_loop_accepted row bidders :
  forall cfg,
  (exists cfg', for_each (bidder_body row) bidders cfg = Ok cfg') <->
  forallb (fun item : string * dict string Z =>
             forallb (cell_accepted row) (snd item)) bidders = true.
Proof.
  induction bidders as [|[b columns] bidders IH]; intros cfg; simpl.
  - split; eauto.
  - rewrite andb_true_iff, <- (param_loop_accepted row columns ([], false)).
    unfold bidder_body at 1.
    destruct (for_each (param_body row) columns ([], false))
      as [[ps hd]|e]; simpl.
    + destruct hd; simpl; rewrite IH;
        (split; [intros H; split; eauto | tauto]).
    + split; [intros [x H]; discriminate | intros [[x H] _]; discriminate].
Qed.

Lemma getitem_ok_length (A : Type) (t : list A) i a :
  0 <= i -> getitem t i = Ok a -> i < Z.of_nat (List.length t).
Proof.
  intros Hi. unfold getitem. replace (i <? 0) with false by lia.
  destruct (Z.of_nat (List.length t) <=? i) eqn:E.
  - rewrite orb_true_r. discriminate.
  - lia.
Qed.

Lemma row_accepted_iff row :
  row_accepted row = true <->
  18 <= Z.of_nat (List.length row) /\
  forall bidder columns p c v,
    In (bidder, columns) bidder_columns -> In (p, c) columns ->
    p <> "bidonmultiformat" -> getitem row (c - 1) = Ok v ->
    finite_value v = true.
Proof.
  unfold row_accepted. rewrite forallb_forall. split.
  - intros H. split.
    + assert (Hc : cell_accepted row ("inventoryCode", 18) = true).
      { specialize (H ("triplelift", [("inventoryCode", 18)])).
        simpl in H. rewrite andb_true_r in H. apply H. tauto. }
      unfold cell_accepted in Hc. simpl in Hc.
      destruct (getitem row 17) as [v|e] eqn:Hv; [|discriminate].
      apply getitem_ok_length in Hv; lia.
    + intros b columns p c v Hb Hp Hne Hv. specialize (H _ Hb). simpl in H.
      rewrite forallb_forall in H. specialize (H _ Hp).
      unfold cell_accepted in H. simpl in H. rewrite Hv in H.
      destruct (String.eqb_spec p "bidonmultiformat"); [contradiction|].
      exact H.
  - intros [Hlen Hfin] [b columns] Hb. simpl. rewrite forallb_forall.
    intros [p c] Hp. unfold cell_accepted. simpl.
    pose proof bidder_columns_range as Hr. rewrite Forall_forall in Hr.
    specialize (Hr _ Hb). rewrite Forall_forall in Hr.
    specialize (Hr _ Hp). simpl in Hr.
    destruct (getitem_ok _ row (c - 1)) as (v & Hv & _); [lia|].
    rewrite Hv. destruct (String.eqb_spec p "bidonmultiformat");
      [reflexivity|].
    simpl. eapply Hfin; eauto.
Qed.

(** X1. The extraction of a row returns an ad-unit object exactly when the
    row reaches column R and none of its configured cells other than
    [bidonmultiformat] holds an infinite float or a NaN. *)
Theorem extract_ok_iff_accepted row :
  (exists cfg, extract_ad_unit row = Ok cfg) <->
  18 <= Z.of_nat (List.length row) /\
  forall bidder columns p c v,
    In (bidder, columns) bidder_columns -> In (p, c) columns ->
    p <> "bidonmultiformat" -> getitem row (c - 1) = Ok v ->
    finite_value v = true.
Proof.
  rewrite <- row_accepted_iff. apply bidder_loop_accepted.
Qed.

(** The cause of an exception of the loop over a bidder's columns. *)
Lemma param_loop_raise row columns e :
  forall st,
  for_each (param_body row) columns st = Raise e ->
  exists p c, In (p, c) columns /\
    (getitem row (c - 1) = Raise e \/
     exists v, getitem row (c - 1) = Ok v /\ coerce p v = Raise e).
Proof.
  induction columns as [|[p c] columns IH]; intros st; simpl; [discriminate|].
  destruct (param_body row st (p, c)) as [st1|e1] eqn:Hb; simpl.
  - intros H. destruct (IH _ H) as (p' & c' & Hin & Hc).
    exists p', c'. auto.
  - intros [= ->]. exists p, c. split; [now left|].
    destruct st as [ps hd]. unfold param_body in Hb.
    destruct (getitem row (c - 1)) as [v|e2]; simpl in Hb; [|left; congruence].
    right. exists v. split; [reflexivity|].
    destruct (cell_present v); [|discriminate].
    destruct (coerce p v); simpl in Hb; congruence.
Qed.

Lemma bidder_loop_raise row bidders e :
  forall cfg,
  for_each (bidder_body row) bidders cfg = Raise e ->
  exists b columns p c, In (b, columns) bidders /\ In (p, c) columns /\
    (getitem row (c - 1) = Raise e \/
     exists v, getitem row (c - 1) = Ok v /\ coerce p v = Raise e).
Proof.
  induction bidders as [|[b columns] bidders IH]; intros cfg; simpl;
    [discriminate|].
  destruct (bidder_body row cfg (b, columns)) as [cfg1|e1] eqn:Hb; simpl.
  - intros H. destruct (IH _ H) as (b' & cols' & p & c & Hin & Hrest).
    exists b', cols', p, c. auto.
  - intros [= ->]. unfold bidder_body in Hb.
    destruct (for_each (param_body row) columns ([], false))
      as [[ps hd]|e2] eqn:Hloop; simpl in Hb.
    + destruct hd; discriminate.
    + injection Hb as ->. apply param_loop_raise in Hloop.
      destruct Hloop as (p & c & Hin & Hc). exists b, columns, p, c. auto.
Qed.

(** The cause of an exception of the extraction. *)
Lemma extract_raise_cases row e :
  extract_ad_unit row = Raise e ->
  (e = IndexError /\ Z.of_nat (List.length row) < 18) \/
  (exists bidder columns p c,
      In (bidder, columns) bidder_columns /\ In (p, c) columns /\
      p <> "bidonmultiformat" /\
      ((e = OverflowError /\
        exists sg, getitem row (c - 1) = Ok (VFloat (S754_infinity sg))) \/
       (e = ValueError /\ getitem row (c - 1) = Ok (VFloat S754_nan)))).
Proof.
  intros H. apply bidder_loop_raise in H.
  destruct H as (b & columns & p & c & Hb & Hp & Hc).
  pose proof bidder_columns_range as Hr. rewrite Forall_forall in Hr.
  specialize (Hr _ Hb). rewrite Forall_forall in Hr.
  specialize (Hr _ Hp). simpl in Hr.
  destruct Hc as [Hg|(v & Hv & Hco)].
  - left. apply getitem_raise in Hg; [|lia]. destruct Hg. split; [auto|lia].
  - right. exists b, columns, p, c. repeat split; auto.
    + intros ->. apply coerce_raise in Hco. destruct Hco. discriminate.
    + apply coerce_raise in Hco.
      destruct Hco as [_ [[-> [sg ->]]|[-> ->]]]; eauto.
Qed.

(** X2. When the extraction of a row raises, the exception is an
    [IndexError] and the row is narrower than column R, or an
    [OverflowError] and a configured cell other than the flag holds an
    infinite float, or a [ValueError] and such a cell holds a NaN. *)
Theorem extract_raise_cause row e :
  extract_ad_unit row = Raise e ->
  (e = IndexError /\ Z.of_nat (List.length row) < 18) \/
  (exists bidder columns p c,
      In (bidder, columns) bidder_columns /\ In (p, c) columns /\
      p <> "bidonmultiformat" /\
      ((e = OverflowError /\
        exists sg, getitem row (c - 1) = Ok (VFloat (S754_infinity sg))) \/
       (e = ValueError /\ getitem row (c - 1) = Ok (VFloat S754_nan)))).
Proof. apply extract_raise_cases. Qed.

Lemma extract_raise_cause_witness :
  (OverflowError = IndexError /\
   Z.of_nat (List.length
               (cells [(1, VStr (lit "billboard"));
                       (11, VFloat (S754_infinity false))])) < 18) \/
  (exists bidder columns p c,
      In (bidder, columns) bidder_columns /\ In (p, c) columns /\
      p <> "bidonmultiformat" /\
      ((OverflowError = OverflowError /\
        exists sg,
          getitem (cells [(1, VStr (lit "billboard"));
                          (11, VFloat (S754_infinity false))]) (c - 1)
          = Ok (VFloat (S754_infinity sg))) \/
       (OverflowError = ValueError /\
        getitem (cells [(1, VStr (lit "billboard"));
                        (11, VFloat (S754_infinity false))]) (c - 1)
        = Ok (VFloat S754_nan)))).
Proof.
  apply (extract_raise_cause
           (cells [(1, VStr (lit "billboard"));
                   (11, VFloat (S754_infinity false))]) OverflowError).
  vm_compute. reflexivity.
Defined.

(** ** When the converter raises *)

Lemma row_body_raise sheet m row_idx e :
  row_body sheet m row_idx = Raise e ->
  (sheet row_idx = [] /\ e = IndexError) \/
  (skip_slot (slot_of sheet row_idx) = false /\
   extract_ad_unit (sheet row_idx) = Raise e).
Proof.
  unfold row_body, slot_of.
  destruct (getitem (sheet row_idx) 0) as [s|e0] eqn:Hs; simpl.
  - destruct (skip_slot s); [discriminate|].
    destruct (dict_mem py_eqb s (adUnits m)); [discriminate|].
    destruct (extract_ad_unit (sheet row_idx)) as [cfg|e1]; simpl.
    + destruct (dict_truthy cfg); discriminate.
    + intros [= ->]. right. auto.
  - intros [= ->]. left. apply getitem_raise in Hs; [|lia].
    destruct Hs as [-> Hlen]. split; [|reflexivity].
    destruct (sheet row_idx); [reflexivity | simpl in Hlen; lia].
Qed.

Lemma row_loop_raise sheet rows e :
  forall m,
  for_each (row_body sheet) rows m = Raise e ->
  exists i, In i rows /\
    ((sheet i = [] /\ e = IndexError) \/
     (skip_slot (slot_of sheet i) = false /\
      extract_ad_unit (sheet i) = Raise e)).
Proof.
  induction rows as [|i rows IH]; intros m; simpl; [discriminate|].
  destruct (row_body sheet m i) as [m1|e1] eqn:Hb; simpl.
  - intros H. destruct (IH _ H) as (j & Hj & Hc). exists j. auto.
  - intros [= ->]. exists i. split; [now left|].
    eapply row_body_raise; eauto.
Qed.

(** X3. The row loop raises nothing but [IndexError], [OverflowError] and
    [ValueError], and only on an iterated row that has no cell at all or
    whose slot pattern passes the test of line 53 and whose extraction
    raises that exception. *)
Theorem convert_sheet_raise_origin sheet e :
  convert_sheet sheet = Raise e ->
  (e = IndexError \/ e = OverflowError \/ e = ValueError) /\
  exists i, In i row_indices /\
    ((sheet i = [] /\ e = IndexError) \/
     (skip_slot (slot_of sheet i) = false /\
      extract_ad_unit (sheet i) = Raise e)).
Proof.
  intros H. apply row_loop_raise in H. destruct H as (i & Hi & Hc).
  split; [|eauto].
  destruct Hc as [[_ ->]|[_ Hx]]; [auto|].
  apply extract_raise_cases in Hx.
  destruct Hx as [[-> _]|(b & cols & p & c & _ & _ & _ & [[-> _]|[-> _]])];
    auto.
Qed.

Lemma convert_sheet_raise_origin_witness :
  let sheet : worksheet := fun i =>
    match i with
    | 5 => cells [(1, VStr (lit "billboard"));
                  (11, VFloat (S754_infinity false))]
    | _ => cells []
    end in
  (OverflowError = IndexError \/ OverflowError = OverflowError \/
   OverflowError = ValueError) /\
  exists i, In i row_indices /\
    ((sheet i = [] /\ OverflowError = IndexError) \/
     (skip_slot (slot_of sheet i) = false /\
      extract_ad_unit (sheet i) = Raise OverflowError)).
Proof.
  apply (convert_sheet_raise_origin
           (fun i => match i with
                     | 5 => cells [(1, VStr (lit "billboard"));
                                   (11, VFloat (S754_infinity false))]
                     | _ => cells []
                     end) OverflowError).
  vm_compute. reflexivity.
Defined.

Lemma row_body_total_accepted sheet m row_idx :
  sheet row_idx <> [] ->
  skip_slot (slot_of sheet row_idx) = true
  \/ row_accepted (sheet row_idx) = true ->
  exists m', row_body sheet m row_idx = Ok m'.
Proof.
  intros Hne Hok. unfold row_body, slot_of in *.
  destruct (getitem_ok _ (sheet row_idx) 0) as (s & Hs & _).
  { destruct (sheet row_idx); [congruence | simpl; lia]. }
  rewrite Hs in *. simpl.
  destruct (skip_slot s); [eauto|].
  destruct (dict_mem py_eqb s (adUnits m)); [eauto|].
  destruct Hok as [Hok|Hok]; [discriminate|].
  apply bidder_loop_accepted with (cfg := []) in Hok.
  destruct Hok as [cfg Hx]. unfold extract_ad_unit. rewrite Hx. simpl.
  destruct (dict_truthy cfg); eauto.
Qed.

(** X4. The converter returns a mapping on every sheet in which each
    iterated row has a first cell and either is skipped by the test of line
    53 or reaches column R without an infinite float or a NaN in a
    configured cell other than the flag: skipped rows may be of any width
    and hold anything. *)
Theorem convert_sheet_returns sheet :
  (forall i, In i row_indices ->
     sheet i <> [] /\
     (skip_slot (slot_of sheet i) = true
      \/ row_accepted (sheet i) = true)) ->
  exists m, convert_sheet sheet = Ok m.
Proof.
  unfold convert_sheet. generalize initial_mapping.
  induction row_indices as [|i rows IH]; intros m H; simpl; [eauto|].
  destruct (H i (in_eq _ _)) as [Hne Hok].
  destruct (row_body_total_accepted sheet m i Hne Hok) as [m1 Hb].
  rewrite Hb. simpl. apply IH. intros j Hj. apply H. now right.
Qed.

Lemma convert_sheet_returns_witness :
  exists m,
    convert_sheet
      (fun i => match i with
                | 3 => cells [(1, VStr (lit "billboard"));
                              (9, VFloat (S754_infinity false));
                              (10, VStr (lit "_k1"))]
                | 13 => [VStr (lit "Slot Pattern"); VFloat S754_nan]
                | _ => [VNone]
                end) = Ok m.
Proof.
  apply convert_sheet_returns.
  intros i Hi. unfold row_indices in Hi. simpl in Hi.
  repeat (destruct Hi as [<-|Hi];
          [split; [discriminate | vm_compute; tauto]|]).
  destruct Hi.
Defined.

(** ** What the output holds *)








(** ** Order of the keys *)

Lemma string_dict_mem_false (V : Type) k (d : dict string V) :
  ~ In k (dict_keys d) -> dict_mem String.eqb k d = false.
Proof.
  induction d as [|[k0 v0] d IH]; simpl; [reflexivity|].
  intros H. rewrite IH by tauto.
  destruct (String.eqb_spec k0 k); [tauto | reflexivity].
Qed.

Lemma param_loop_keys row columns :
  NoDup (List.map fst columns) ->
  forall ps hd ps' hd',
  (forall p, In p (List.map fst columns) -> ~ In p (dict_keys ps)) ->
  for_each (param_body row) columns (ps, hd) = Ok (ps', hd') ->
  dict_keys ps'
  = dict_keys ps
    ++ List.map fst (filter (fun pc => present_at row (snd pc)) columns).
Proof.
  induction columns as [|[p c] columns IH]; intros Hnd ps hd ps' hd' Hfresh;
    simpl.
  - intros [= <- <-]. now rewrite app_nil_r.
  - inversion Hnd as [|? ? Hnotin Hnd']; subst.
    destruct (param_body row (ps, hd) (p, c)) as [[ps1 hd1]|e] eqn:Hb; simpl;
      [|discriminate].
    intros H. apply param_body_inv in Hb. destruct Hb as (v & Hv & Hb).
    unfold present_at at 1. rewrite Hv.
    destruct (cell_present v).
    + destruct Hb as (v' & _ & -> & _).
      rewrite dict_set_fresh in H
        by (apply string_dict_mem_false; apply Hfresh; now left).
      apply (IH Hnd') in H.
      * rewrite H. unfold dict_keys. rewrite map_app. simpl.
        now rewrite <- app_assoc.
      * intros q Hq. unfold dict_keys. rewrite map_app, in_app_iff. simpl.
        intros [Hin|[<-|[]]]; [|contradiction].
        apply (Hfresh q); [now right | exact Hin].
    + destruct Hb as [-> ->]. apply (IH Hnd') in H; [exact H|].
      intros q Hq. apply Hfresh. now right.
Qed.

Lemma bidder_loop_keys row bidders :
  NoDup (List.map fst bidders) ->
  forall cfg cfg',
  (forall b, In b (List.map fst bidders) -> ~ In b (dict_keys cfg)) ->
  for_each (bidder_body row) bidders cfg = Ok cfg' ->
  dict_keys cfg'
  = dict_keys cfg
    ++ List.map fst
         (filter (fun item => columns_have_data row (snd item)) bidders).
Proof.
  induction bidders as [|[b columns] bidders IH]; intros Hnd cfg cfg' Hfresh;
    simpl.
  - intros [= <-]. now rewrite app_nil_r.
  - inversion Hnd as [|? ? Hnotin Hnd']; subst.
    destruct (bidder_body row cfg (b, columns)) as [cfg1|e] eqn:Hb; simpl;
      [|discriminate].
    intros H. apply bidder_body_inv in Hb.
    destruct Hb as (ps & hd & _ & -> & Hb).
    destruct (columns_have_data row columns).
    + destruct Hb as [_ ->].
      rewrite dict_set_fresh in H
        by (apply string_dict_mem_false; apply Hfresh; now left).
      apply (IH Hnd') in H.
      * rewrite H. unfold dict_keys. rewrite map_app. simpl.
        now rewrite <- app_assoc.
      * intros q Hq. unfold dict_keys. rewrite map_app, in_app_iff. simpl.
        intros [Hin|[<-|[]]]; [|contradiction].
        apply (Hfresh q); [now right | exact Hin].
    + subst cfg1. apply (IH Hnd') in H; [exact H|].
      intros q Hq. apply Hfresh. now right.
Qed.

(** X6. The keys of an extracted ad-unit object are the configured bidders
    that have data in the row, in the order of the configuration, and the
    keys of a bidder's parameter set are its configured parameters whose cell
    is present, in the order of the configuration. *)
Theorem extract_keys_in_config_order row cfg :
  extract_ad_unit row = Ok cfg ->
  dict_keys cfg
  = List.map fst
      (filter (fun item => columns_have_data row (snd item)) bidder_columns)
  /\
  forall bidder columns ps,
    In (bidder, columns) bidder_columns ->
    dict_get String.eqb bidder cfg = Some ps ->
    dict_keys ps
    = List.map fst (filter (fun pc => present_at row (snd pc)) columns).
Proof.
  intros Hx. split.
  - apply (bidder_loop_keys row _ (proj1 bidder_columns_nodup) _ _) in Hx;
      [exact Hx | auto].
  - intros b columns ps Hb Hget.
    destruct (extract_get _ _ _ _ Hx Hb) as (ps0 & Hloop & Hres).
    destruct (columns_have_data row columns); [|congruence].
    assert (ps0 = ps) by congruence. subst ps0.
    pose proof (proj2 bidder_columns_nodup) as Hnd.
    rewrite Forall_forall in Hnd. specialize (Hnd _ Hb). simpl in Hnd.
    apply (param_loop_keys row columns Hnd) in Hloop; [exact Hloop | auto].
Qed.

Lemma extract_keys_in_config_order_witness :
  dict_keys
    [("rubicon", [("accountId", VInt 26298); ("siteId", VInt 556630);
                  ("zoneId", VInt 3767184);
                  ("bidonmultiformat", VBool true)]);
     ("kargo", [("placementId", VStr (lit "_o5JqmWmgs"))])]
  = List.map fst
      (filter (fun item => columns_have_data (sample_sheet 3) (snd item))
              bidder_columns)
  /\
  forall bidder columns ps,
    In (bidder, columns) bidder_columns ->
    dict_get String.eqb bidder
      [("rubicon", [("accountId", VInt 26298); ("siteId", VInt 556630);
                    ("zoneId", VInt 3767184);
                    ("bidonmultiformat", VBool true)]);
       ("kargo", [("placementId", VStr (lit "_o5JqmWmgs"))])] = Some ps ->
    dict_keys ps
    = List.map fst
        (filter (fun pc => present_at (sample_sheet 3) (snd pc)) columns).
Proof.
  apply (extract_keys_in_config_order (sample_sheet 3)).
  vm_compute. reflexivity.
Defined.

(** ** Fields of a bidder *)

Lemma extract_cell row cfg bidder columns p c v ps :
  extract_ad_unit row = Ok cfg ->
  In (bidder, columns) bidder_columns -> In (p, c) columns ->
  getitem row (c - 1) = Ok v ->
  dict_get String.eqb bidder cfg = Some ps ->
  if cell_present v
  then exists v', coerce p v = Ok v' /\ dict_get String.eqb p ps = Some v'
  else dict_get String.eqb p ps = None.
Proof.
  intros Hx Hb Hp Hv Hget.
  destruct (extract_get _ _ _ _ Hx Hb) as (ps0 & Hloop & Hres).
  destruct (columns_have_data row columns); [|congruence].
  assert (ps0 = ps) by congruence. subst ps0.
  pose proof (proj2 bidder_columns_nodup) as Hnd.
  rewrite Forall_forall in Hnd. specialize (Hnd _ Hb). simpl in Hnd.
  destruct (param_loop_get row columns Hnd _ _ _ _ Hloop) as [_ Hcells].
  destruct (Hcells p c Hp) as (v0 & Hv0 & Hcell).
  rewrite Hv in Hv0. injection Hv0 as <-. exact Hcell.
Qed.

(** X7. A present cell that is not a float, in a column other than the
    flag's, is written as it is: text keeps its surrounding white space and
    text that reads as a number stays text. *)
Theorem non_float_cell_verbatim row cfg bidder columns p c v :
  extract_ad_unit row = Ok cfg ->
  In (bidder, columns) bidder_columns -> In (p, c) columns ->
  getitem row (c - 1) = Ok v ->
  cell_present v = true ->
  isinstance_float v = false ->
  p <> "bidonmultiformat" ->
  exists ps,
    dict_get String.eqb bidder cfg = Some ps /\
    dict_get String.eqb p ps = Some v.
Proof.
  intros Hx Hb Hp Hv Hpres Hfl Hne.
  assert (Hdata : columns_have_data row columns = true).
  { apply columns_have_data_iff. exists p, c, v.
    now rewrite <- cell_present_iff. }
  destruct (extract_get _ _ _ _ Hx Hb) as (ps & _ & Hget).
  rewrite Hdata in Hget. exists ps. split; [exact Hget|].
  pose proof (extract_cell _ _ _ _ _ _ _ _ Hx Hb Hp Hv Hget) as Hcell.
  rewrite Hpres in Hcell. destruct Hcell as (v' & Hco & ->).
  unfold coerce in Hco. rewrite Hfl in Hco. simpl in Hco.
  destruct (String.eqb_spec p "bidonmultiformat"); congruence.
Qed.

Lemma non_float_cell_verbatim_witness :
  exists ps,
    dict_get String.eqb "pubmatic"
      [("pubmatic", [("publisherId", VStr (lit " 166938 "))])] = Some ps /\
    dict_get String.eqb "publisherId" ps = Some (VStr (lit " 166938 ")).
Proof.
  apply (non_float_cell_verbatim
           (cells [(1, VStr (lit "leaderboard"));
                   (16, VStr (lit " 166938 "))])
           _ "pubmatic" [("publisherId", 16); ("adSlot", 17)]
           "publisherId" 16).
  - vm_compute. reflexivity.
  - simpl. tauto.
  - simpl. tauto.
  - vm_compute. reflexivity.
  - reflexivity.
  - reflexivity.
  - discriminate.
Defined.

(** X8. A cell that is blank, empty or white space only leaves no field: the
    parameter sets of the output hold no key for it, not even with a null
    value. *)
Theorem absent_cell_no_field row cfg bidder columns p c v ps :
  extract_ad_unit row = Ok cfg ->
  In (bidder, columns) bidder_columns -> In (p, c) columns ->
  getitem row (c - 1) = Ok v ->
  cell_present v = false ->
  dict_get String.eqb bidder cfg = Some ps ->
  dict_get String.eqb p ps = None /\ ~ In p (dict_keys ps).
Proof.
  intros Hx Hb Hp Hv Hpres Hget.
  pose proof (extract_cell _ _ _ _ _ _ _ _ Hx Hb Hp Hv Hget) as Hcell.
  rewrite Hpres in Hcell. split; [exact Hcell|].
  intros Hin. unfold dict_keys in Hin. apply in_map_iff in Hin.
  destruct Hin as ([p' v'] & <- & Hin). simpl in Hcell.
  clear - Hcell Hin. induction ps as [|[k w] ps IH]; simpl in *; [tauto|].
  destruct (String.eqb_spec k p'); [discriminate|].
  destruct Hin as [[= -> ->]|Hin]; [congruence | auto].
Qed.

Lemma absent_cell_no_field_witness :
  dict_get String.eqb "adSlot" [("publisherId", VStr (lit "166938"))] = None
  /\ ~ In "adSlot" (dict_keys [("publisherId", VStr (lit "166938"))]).
Proof.
  apply (absent_cell_no_field (sample_sheet 4)
           [("sovrn", [("tagid", VInt 1294952)]);
            ("pubmatic", [("publisherId", VStr (lit "166938"))])]
           "pubmatic" [("publisherId", 16); ("adSlot", 17)]
           "adSlot" 17 (VStr (lit " "))).
  - vm_compute. reflexivity.
  - simpl. tauto.
  - simpl. tauto.
  - vm_compute. reflexivity.
  - reflexivity.
  - reflexivity.
Defined.

(** ** The recorded rows *)

Lemma dict_mem_keys (V : Type) s (d : dict value V) :
  dict_mem py_eqb s d = existsb (fun k => py_eqb k s) (dict_keys d).
Proof.
  induction d as [|[k v] d IH]; simpl; [reflexivity|]. now rewrite <- IH.
Qed.

Lemma first_rows_length sheet rows :
  forall seen,
  (List.length (first_rows sheet rows seen) <= List.length rows)%nat.
Proof.
  induction rows as [|i rows IH]; intros seen; simpl; [lia|].
  destruct (populated sheet i
            && negb (existsb (fun k => py_eqb k (slot_of sheet i)) seen));
    simpl; [specialize (IH (seen ++ [slot_of sheet i])) | specialize (IH seen)];
    lia.
Qed.

Lemma row_loop_first_rows sheet rows :
  forall m m',
  for_each (row_body sheet) rows m = Ok m' ->
  adUnits m'
  = adUnits m
    ++ List.map (fun i => (slot_of sheet i, unit_of sheet i))
         (first_rows sheet rows (dict_keys (adUnits m))).
Proof.
  induction rows as [|i rows IH]; intros m m'; simpl.
  - intros [= <-]. now rewrite app_nil_r.
  - destruct (row_body sheet m i) as [m1|e] eqn:Hb; simpl; [|discriminate].
    intros H. specialize (IH _ _ H). apply row_body_step in Hb.
    unfold populated, slot_of.
    destruct Hb as [s Hs Hk|s Hs Hk Hm|s Hs Hk Hm Hx Hd
                   |s cfg Hs Hk Hm Hx Hd Hne]; rewrite Hs, Hk; simpl.
    + exact IH.
    + rewrite <- dict_mem_keys, Hm, andb_false_r. exact IH.
    + rewrite Hd. exact IH.
    + rewrite Hd, <- dict_mem_keys, Hm. simpl.
      rewrite IH. simpl. unfold dict_keys. rewrite map_app. simpl.
      rewrite <- app_assoc. simpl. unfold slot_of, unit_of.
      now rewrite Hs, Hx.
Qed.

(** X9. The entries of adUnits are, in iteration order, the populated rows
    whose slot pattern equals that of no populated row before them, each
    with its slot pattern and its extracted ad-unit object; there are at
    most 22 of them. *)
Theorem adUnits_are_first_rows sheet m :
  convert_sheet sheet = Ok m ->
  adUnits m
  = List.map (fun i => (slot_of sheet i, unit_of sheet i))
      (first_rows sheet row_indices []) /\
  (List.length (adUnits m) <= 22)%nat.
Proof.
  intros H. apply row_loop_first_rows in H.
  change (adUnits initial_mapping) with (@nil (value * ad_unit)) in H.
  change (dict_keys (@nil (value * ad_unit))) with (@nil value) in H.
  rewrite app_nil_l in H. split; [exact H|].
  rewrite H, length_map.
  exact (first_rows_length sheet row_indices []).
Qed.

Lemma adUnits_are_first_rows_witness :
  let m := set_adUnits initial_mapping
             [(VStr (lit "billboard"),
               [("rubicon", [("accountId", VInt 26298);
                             ("siteId", VInt 556630);
                             ("zoneId", VInt 3767184);
                             ("bidonmultiformat", VBool true)]);
                ("kargo", [("placementId", VStr (lit "_o5JqmWmgs"))])]);
              (VStr (lit "leaderboard"),
               [("sovrn", [("tagid", VInt 1294952)]);
                ("pubmatic", [("publisherId", VStr (lit "166938"))])])] in
  adUnits m
  = List.map (fun i => (slot_of sample_sheet i, unit_of sample_sheet i))
      (first_rows sample_sheet row_indices []) /\
  (List.length (adUnits m) <= 22)%nat.
Proof.
  apply (adUnits_are_first_rows sample_sheet). vm_compute. reflexivity.
Defined.

Lemma row_loop_entries_valid sheet rows :
  forall m m',
  for_each (row_body sheet) rows m = Ok m' ->
  forall s cfg, In (s, cfg) (adUnits m') ->
  In (s, cfg) (adUnits m) \/
  exists i, In i rows /\ getitem (sheet i) 0 = Ok s /\
            skip_slot s = false /\ extract_ad_unit (sheet i) = Ok cfg.
Proof.
  induction rows as [|i rows IH]; intros m m'; simpl.
  - intros [= <-]. auto.
  - destruct (row_body sheet m i) as [m1|e] eqn:Hb; simpl; [|discriminate].
    intros H s cfg Hin. destruct (IH _ _ H s cfg Hin) as [Hm1|Hex].
    + apply row_body_step in Hb.
      destruct Hb as [s0 Hs0 Hk0|s0 Hs0 Hk0 Hm0|s0 Hs0 Hk0 Hm0 Hx Hd
                     |s0 cfg0 Hs0 Hk0 Hm0 Hx Hd Hne]; auto.
      simpl in Hm1. apply in_app_or in Hm1.
      destruct Hm1 as [Hm1|[[= <- <-]|[]]]; [auto|].
      right. exists i. auto.
    + right. destruct Hex as (j & Hj & Hrest). exists j. auto.
Qed.

(** X10. No object of the output is empty and no key is spurious: a key of
    adUnits is never empty, zero, false or the header text, every ad unit
    has a bidder, every bidder is one of the publisher's defaultBidders and
    has at least one parameter. *)
Theorem output_objects_nonempty sheet m s cfg :
  convert_sheet sheet = Ok m -> In (s, cfg) (adUnits m) ->
  skip_slot s = false /\ cfg <> [] /\
  forall bidder ps, In (bidder, ps) cfg ->
    In bidder (defaultBidders (publisher m)) /\ ps <> [].
Proof.
  intros H Hin.
  pose proof (row_loop_publisher _ _ _ _ H) as Hpub.
  destruct (row_loop_entries_valid sheet row_indices _ _ H s cfg Hin)
    as [[]|(i & _ & _ & Hskip & Hx)].
  split; [exact Hskip|]. split.
  - destruct cfg; [|discriminate].
    destruct (convert_sheet_entries _ _ _ _ H Hin) as (j & _ & _ & _ & Hne).
    exact Hne.
  - intros bidder ps Hb. split.
    + rewrite Hpub.
      pose proof (bidder_loop_keys _ _ (proj1 bidder_columns_nodup) _ _
                    (fun _ _ (F : In _ (dict_keys [])) => F) Hx) as Hkeys.
      assert (Hk : In bidder (dict_keys cfg)).
      { unfold dict_keys. apply in_map_iff. now exists (bidder, ps). }
      rewrite Hkeys in Hk. cbn [dict_keys List.map app] in Hk.
      apply in_map_iff in Hk.
      destruct Hk as ([b' cols] & <- & Hf). apply filter_In in Hf.
      destruct Hf as [Hf _]. simpl in Hf. simpl.
      repeat (destruct Hf as [[= <- _]|Hf]; [simpl; tauto|]).
      destruct Hf.
    + eapply extract_nonempty_params; eauto.
Qed.

Lemma output_objects_nonempty_witness :
  let cfg := [("kargo", [("placementId", VStr (lit "_k1"))])] in
  let m := set_adUnits initial_mapping [(VStr (lit "billboard"), cfg)] in
  skip_slot (VStr (lit "billboard")) = false /\ cfg <> [] /\
  forall bidder ps, In (bidder, ps) cfg ->
    In bidder (defaultBidders (publisher m)) /\ ps <> [].
Proof.
  apply (output_objects_nonempty late_data_sheet).
  - vm_compute. reflexivity.
  - simpl. tauto.
Defined.

(** ** Cells the converter does not read *)






(** ** Slot patterns that count as empty *)




(** ** The summary, line by line *)

Lemma io_for_print (A : Type) (f : A -> line) xs out :
  io_for (fun x => print (f x)) xs out
  = (out ++ List.map (fun x => Printed (f x)) xs, Ok tt).
Proof.
  revert out. induction xs as [|x xs IH]; intros out; simpl.
  - unfold io_ret. now rewrite app_nil_r.
  - unfold io_bind, print, emit. rewrite IH. now rewrite <- app_assoc.
Qed.

Lemma print_summary_eq m out :
  print_summary m out
  = match adUnits m with
    | [] => (out ++ summary_head m, Raise IndexError)
    | (k, u) :: _ => (out ++ summary_head m ++ sample_lines k u, Ok tt)
    end.
Proof.
  unfold print_summary, summary_head, sample_lines, all_bidders.
  unfold io_bind at 1 2 3 4. unfold print at 1 2 3 4. unfold emit, lift.
  destruct (adUnits m) as [|[k u] d].
  - unfold io_bind. simpl. now rewrite <- !app_assoc.
  - unfold io_bind at 1 2.
    cbn [dict_keys List.map getitem List.length nth_error fst snd
         Z.of_nat Z.ltb Z.leb Z.compare orb Z.to_nat].
    unfold io_bind, print at 1, emit.
    rewrite (io_for_print (string * bidder_params)
               (fun item => LBidder (fst item) (snd item))).
    now rewrite <- !app_assoc.
Qed.

Lemma set_update_in s keys b :
  In b (set_update s keys) <-> In b s \/ In b keys.
Proof.
  unfold set_update. revert s.
  induction keys as [|k keys IH]; intros s; simpl; [tauto|].
  rewrite IH. destruct (existsb (String.eqb k) s) eqn:E.
  - apply existsb_exists in E. destruct E as (x & Hx & E).
    apply String.eqb_eq in E. subst x.
    split; [tauto | intros [H|[<-|H]]; auto].
  - rewrite in_app_iff. simpl. tauto.
Qed.

Lemma set_update_nodup s keys : NoDup s -> NoDup (set_update s keys).
Proof.
  unfold set_update. revert s.
  induction keys as [|k keys IH]; intros s Hs; simpl; [exact Hs|].
  apply IH. destruct (existsb (String.eqb k) s) eqn:E; [exact Hs|].
  apply NoDup_app; [exact Hs | repeat constructor; tauto |].
  intros x Hx [->|[]].
  assert (existsb (String.eqb x) s = true); [|congruence].
  apply existsb_exists. exists x. split; [exact Hx | apply String.eqb_refl].
Qed.

Lemma all_bidders_spec m :
  NoDup (all_bidders m) /\
  forall b, In b (all_bidders m) <->
            exists k u, In (k, u) (adUnits m) /\ In b (dict_keys u).
Proof.
  unfold all_bidders.
  assert (H : forall d acc,
    NoDup acc ->
    NoDup (fold_left (fun acc (item : value * ad_unit) =>
                        set_update acc (dict_keys (snd item))) d acc) /\
    forall b,
      In b (fold_left (fun acc (item : value * ad_unit) =>
                         set_update acc (dict_keys (snd item))) d acc) <->
      In b acc \/ exists k u, In (k, u) d /\ In b (dict_keys u)).
  { induction d as [|[k u] d IH]; intros acc Hacc; simpl.
    - split; [exact Hacc|]. intros b. split; [tauto|].
      intros [H|(k & u & [] & _)]. exact H.
    - destruct (IH (set_update acc (dict_keys u))
                   (set_update_nodup _ _ Hacc)) as [Hnd Hin].
      split; [exact Hnd|]. intros b. rewrite Hin, set_update_in. split.
      + intros [[H|H]|(k' & u' & H1 & H2)]; eauto 6.
      + intros [H|(k' & u' & [[= <- <-]|H1] & H2)]; eauto 6. }
  destruct (H (adUnits m) [] (NoDup_nil _)) as [Hnd Hin].
  split; [exact Hnd|]. intros b. rewrite Hin. simpl. tauto.
Qed.

Lemma insert_sorted_in k l b : In b (insert_sorted k l) <-> b = k \/ In b l.
Proof.
  induction l as [|x l IH]; simpl; [intuition|].
  destruct (String.leb k x); simpl; [intuition|]. rewrite IH. intuition.
Qed.

Lemma insert_sorted_sorted k l :
  Sorted (fun a b => String.leb a b = true) l ->
  Sorted (fun a b => String.leb a b = true) (insert_sorted k l).
Proof.
  induction l as [|x l IH]; simpl; intros Hl.
  - repeat constructor.
  - destruct (String.leb k x) eqn:E.
    + constructor; [exact Hl | now constructor].
    + inversion Hl as [|? ? Hl' Hhd]; subst. constructor; [now apply IH|].
      assert (Hxk : String.leb x k = true).
      { destruct (String.leb_total k x); congruence. }
      destruct l as [|y l]; simpl; [now constructor|].
      destruct (String.leb k y); constructor; [exact Hxk|].
      now inversion Hhd.
Qed.

Lemma sorted_spec l :
  Sorted (fun a b => String.leb a b = true) (sorted l) /\
  (forall b, In b (sorted l) <-> In b l) /\
  List.length (sorted l) = List.length l /\
  (NoDup l -> NoDup (sorted l)).
Proof.
  unfold sorted. induction l as [|x l (Hs & Hin & Hlen & Hnd)]; simpl.
  - repeat split; auto; constructor.
  - split; [now apply insert_sorted_sorted|].
    split; [intros b; rewrite insert_sorted_in, Hin; intuition|].
    split.
    + rewrite <- Hlen. generalize (fold_right insert_sorted [] l).
      intros l0. induction l0 as [|y l0 IH0]; simpl; [reflexivity|].
      destruct (String.leb x y); simpl; [reflexivity | now rewrite IH0].
    + intros H. inversion H as [|? ? Hx Hl]; subst. specialize (Hnd Hl).
      assert (Hx' : ~ In x (fold_right insert_sorted [] l)) by now rewrite Hin.
      revert Hnd Hx'. generalize (fold_right insert_sorted [] l).
      intros l0. induction l0 as [|y l0 IH0]; simpl; intros Hnd Hx'.
      * repeat constructor. tauto.
      * destruct (String.leb x y); [now constructor|].
        inversion Hnd as [|? ? Hy Hl0]; subst. constructor.
        -- rewrite insert_sorted_in. intros [->|H']; tauto.
        -- apply IH0; tauto.
Qed.

(** X13. The summary always starts with the same four lines; the bidders
    line gives the number of distinct bidders met in adUnits and lists
    exactly those bidders, each once, in ascending order. *)
Theorem summary_bidders_line m out :
  (exists rest r, print_summary m out = (out ++ summary_head m ++ rest, r)) /\
  List.length (sorted (all_bidders m)) = List.length (all_bidders m) /\
  Sorted (fun a b => String.leb a b = true) (sorted (all_bidders m)) /\
  NoDup (sorted (all_bidders m)) /\
  forall b, In b (sorted (all_bidders m)) <->
            exists k u, In (k, u) (adUnits m) /\ In b (dict_keys u).
Proof.
  destruct (all_bidders_spec m) as [Hnd Hin].
  destruct (sorted_spec (all_bidders m)) as (Hs & Hin' & Hlen & Hnd').
  split; [|repeat split; auto].
  - rewrite print_summary_eq. destruct (adUnits m) as [|[k u] d].
    + exists [], (Raise IndexError). now rewrite app_nil_r.
    + eauto.
  - intros H. apply Hin, Hin'. exact H.
  - intros H. apply Hin', Hin. exact H.
Qed.

(** X14. When adUnits is not empty, the summary completes: after the four
    first lines it prints the first recorded slot pattern and one line for
    each bidder of that ad unit, in the order of its keys. *)
Theorem summary_samples_first_unit m out k u rest :
  adUnits m = (k, u) :: rest ->
  print_summary m out
  = (out ++ summary_head m ++ sample_lines k u, Ok tt).
Proof. intros E. rewrite print_summary_eq, E. reflexivity. Qed.

Lemma summary_samples_first_unit_witness :
  let u := [("kargo", [("placementId", VStr (lit "_k1"))])] in
  let m := set_adUnits initial_mapping [(VStr (lit "billboard"), u)] in
  print_summary m []
  = ([] ++ summary_head m ++ sample_lines (VStr (lit "billboard")) u, Ok tt).
Proof.
  apply (summary_samples_first_unit
           (set_adUnits initial_mapping
              [(VStr (lit "billboard"),
                [("kargo", [("placementId", VStr (lit "_k1"))])])])
           [] (VStr (lit "billboard"))
           [("kargo", [("placementId", VStr (lit "_k1"))])] []).
  reflexivity.
Defined.

(** ** Runs of the script *)





(** ** The other sheets of the workbook *)

Lemma wb_getitem_found wb name sheet :
  NoDup (List.map fst wb) -> In (name, sheet) wb ->
  wb_getitem wb name = Ok sheet.
Proof.
  induction wb as [|[title sh] wb IH]; simpl; intros Hnd Hin; [destruct Hin|].
  inversion Hnd as [|? ? Hnotin Hnd']; subst.
  destruct (pystr_eqb title name) eqn:E.
  - apply pystr_eqb_eq in E. subst title.
    destruct Hin as [[= <-]|Hin]; [reflexivity|].
    exfalso. apply Hnotin. apply in_map_iff. now exists (name, sheet).
  - destruct Hin as [[= -> _]|Hin]; [|now apply IH].
    rewrite pystr_eqb_refl in E. discriminate.
Qed.

(** X17. Only the sheet titled "PLACEMENTS" matters: in a workbook whose
    sheets have distinct titles, wherever that sheet stands and whatever the
    other sheets hold, the converter returns what the row loop gives on
    it. *)
Theorem other_sheets_ignored (load_workbook : string -> result workbook)
        excel_file wb sheet :
  load_workbook excel_file = Ok wb ->
  NoDup (List.map fst wb) ->
  In (lit "PLACEMENTS", sheet) wb ->
  convert_excel_to_json load_workbook excel_file = convert_sheet sheet.
Proof.
  intros Hload Hnd Hin. unfold convert_excel_to_json.
  rewrite Hload. cbn [bind]. now rewrite (wb_getitem_found _ _ _ Hnd Hin).
Qed.

Lemma other_sheets_ignored_witness :
  convert_excel_to_json
    (fun _ : string =>
       Ok [(lit "README", blank_sheet); (lit "PLACEMENTS", sample_sheet);
           (lit "placements", late_data_sheet)])
    "docs/integrations/tps-onboarding.xlsx"
  = convert_sheet sample_sheet.
Proof.
  apply (other_sheets_ignored _ _
           [(lit "README", blank_sheet); (lit "PLACEMENTS", sample_sheet);
            (lit "placements", late_data_sheet)]).
  - reflexivity.
  - repeat constructor; simpl; vm_compute; intuition discriminate.
  - simpl. tauto.
Defined.
